(** * Story-Weaver: the request/response layer of [app.py]

    A shallow embedding of the Streamlit script [src/app.py]: the two
    Gemini clients ([generate_story], [text_to_speech]), the prompt
    assembled in the "Generate Story" branch, the WAV container written
    through Python's [wave] module, and one run of the script over the
    session state.

    Conventions of the model.
    - A Python [str] is a Rocq [string]; each character stands for the
      code point of the same number (0..255).
    - A Python exception is a value of [exn]; a computation that can raise
      returns [py A].  [try]/[except] is a match on the class of the
      exception, with the subclass relation of the Python classes.
    - What the script shows on the page and what it sends over the network
      is a list of [event]s, in program order.
    - The libraries the script calls ([requests], [json], [base64], [wave],
      [struct], [io]) are modelled by what CPython 3.11 and requests 2.31
      do, on a little-endian host whose C [long] has 64 bits. *)

From Stdlib Require Import ZArith String Ascii List Lia Bool.
From Stdlib.Strings Require Import Byte.
From stdpp Require Import base option list strings gmap pretty.

Local Open Scope Z_scope.

(** ** Exceptions *)

Inductive exn_class :=
  | RequestException | ConnectionError | Timeout | TooManyRedirects
  | HTTPError | JSONDecodeError
  | KeyError | IndexError | TypeError | ValueError | AttributeError
  | RecursionError
  | binascii_Error | wave_Error | struct_error.

Record exn := Exn { exn_cls : exn_class; exn_str : string }.

(** [except requests.exceptions.RequestException]: the class itself and
    the subclasses of it that can reach the handlers of this script. *)
Definition is_RequestException (c : exn_class) : bool :=
  match c with
  | RequestException | ConnectionError | Timeout | TooManyRedirects
  | HTTPError | JSONDecodeError => true
  | _ => false
  end.

(** [except (KeyError, IndexError)]. *)
Definition is_KeyError_or_IndexError (c : exn_class) : bool :=
  match c with
  | KeyError | IndexError => true
  | _ => false
  end.

Inductive py (A : Type) : Type :=
  | Ok (a : A)
  | Raise (e : exn).
Arguments Ok {A} a.
Arguments Raise {A} e.

Definition py_bind {A B} (m : py A) (k : A -> py B) : py B :=
  match m with
  | Ok a => k a
  | Raise e => Raise e
  end.

Declare Scope py_scope.
Delimit Scope py_scope with py.
Notation "x <- m ;; k" := (py_bind m (fun x => k))
  (at level 100, m at next level, right associativity) : py_scope.

(** ** Python values: what [json.loads] produces

    A JSON number is kept as an integer: the script only subscripts these
    values and tests their truth, and a float behaves there like an
    integer that is zero exactly when the float is. *)

#[warnings="-register-all"]
Inductive pyval :=
  | PNone
  | PBool (b : bool)
  | PInt (z : Z)
  | PStr (s : string)
  | PList (l : list pyval)
  | PDict (d : list (string * pyval)).

(** [bool(v)], as in [if story:]. *)
Definition truthy (v : pyval) : bool :=
  match v with
  | PNone => false
  | PBool b => b
  | PInt z => negb (z =? 0)
  | PStr s => negb (String.eqb s "")
  | PList l => match l with [] => false | _ => true end
  | PDict d => match d with [] => false | _ => true end
  end.

(** The items of a [dict], keys distinct; a lookup returns the first
    binding of the key. *)
Fixpoint dict_get (k : string) (d : list (string * pyval)) : option pyval :=
  match d with
  | [] => None
  | (k', v) :: d' => if String.eqb k k' then Some v else dict_get k d'
  end.

Definition code (c : ascii) : Z := Z.of_N (N_of_ascii c).

Definition hex_digit (n : Z) : ascii :=
  ascii_of_N (Z.to_N (if n <? 10 then 48 + n else 87 + n)).

(** [str.isprintable] on one character below 256. *)
Definition is_printable (c : ascii) : bool :=
  let n := code c in
  ((32 <=? n) && (n <? 127)) || ((161 <=? n) && negb (n =? 173)).

(** One character inside [repr(s)], [q] being the quote chosen. *)
Definition repr_char (q c : ascii) : string :=
  let n := code c in
  if Ascii.eqb c q || Ascii.eqb c "\" then String "\" (String c EmptyString)
  else if n =? 9 then "\t"
  else if n =? 10 then "\n"
  else if n =? 13 then "\r"
  else if is_printable c then String c EmptyString
  else String "\" (String "x" (String (hex_digit (n / 16))
                                 (String (hex_digit (n mod 16)) EmptyString))).

Definition contains_char (c : ascii) (s : string) : bool :=
  existsb (Ascii.eqb c) (list_ascii_of_string s).

(** [repr(s)] for a [str]: single quotes, unless the text holds a single
    quote and no double quote. *)
Definition quote (s : string) : string :=
  let q := if contains_char "'" s && negb (contains_char "034" s)
           then "034"%char else "'"%char in
  String q (String.concat EmptyString (map (repr_char q) (list_ascii_of_string s)))
    +:+ String q EmptyString.

(** [v[k]] for a string key. *)
Definition getitem_str (v : pyval) (k : string) : py pyval :=
  match v with
  | PDict d =>
      match dict_get k d with
      | Some x => Ok x
      | None => Raise (Exn KeyError (quote k))
      end
  | PList _ => Raise (Exn TypeError "list indices must be integers or slices, not str")
  | PStr _ => Raise (Exn TypeError "string indices must be integers, not 'str'")
  | _ => Raise (Exn TypeError "object is not subscriptable")
  end.

(** [v[0]].  The keys of a parsed JSON object are strings, so [0] is never
    a key of a [dict]. *)
Definition getitem_0 (v : pyval) : py pyval :=
  match v with
  | PList [] => Raise (Exn IndexError "list index out of range")
  | PList (x :: _) => Ok x
  | PStr EmptyString => Raise (Exn IndexError "string index out of range")
  | PStr (String c _) => Ok (PStr (String c EmptyString))
  | PDict _ => Raise (Exn KeyError "0")
  | _ => Raise (Exn TypeError "object is not subscriptable")
  end.

(** ** The HTTP round trip *)

(** What [Response.json] makes of the body.  [json.loads] either parses
    it, or raises a [JSONDecodeError] that [Response.json] turns into the
    [JSONDecodeError] of [requests] (a [RequestException]) with the same
    text, or raises something else that [Response.json] lets through: a
    plain [ValueError] for an integer literal beyond the interpreter's
    limit on digits, a [RecursionError] for nesting beyond the recursion
    limit.  The texts are those of the exceptions. *)
Inductive json_body :=
  | Json (v : pyval)
  | NotJson (detail : string)
  | JsonDigits (detail : string)
  | JsonDepth (detail : string).

Record Response := {
  status_code : Z;
  reason : string;
  url : string;
  body : json_body
}.

Inductive transport_error := ConnectionFailed | TimedOut | RedirectLoop.

Definition transport_class (t : transport_error) : exn_class :=
  match t with
  | ConnectionFailed => ConnectionError
  | TimedOut => Timeout
  | RedirectLoop => TooManyRedirects
  end.

(** What [requests.post] does: it raises a [RequestException] of the
    transport, or returns the server's response whatever its status. *)
Inductive post_result :=
  | PostFails (t : transport_error) (detail : string)
  | PostReturns (r : Response).

(** The remote side: the answer to a POST of a payload to a URL. *)
Definition network := string -> pyval -> post_result.

(** [Response.raise_for_status]: an [HTTPError] for 4xx and 5xx. *)
Definition raise_for_status (r : Response) : py unit :=
  if (400 <=? status_code r) && (status_code r <? 500) then
    Raise (Exn HTTPError
      (pretty (status_code r) +:+ " Client Error: " +:+ reason r +:+ " for url: " +:+ url r))
  else if (500 <=? status_code r) && (status_code r <? 600) then
    Raise (Exn HTTPError
      (pretty (status_code r) +:+ " Server Error: " +:+ reason r +:+ " for url: " +:+ url r))
  else Ok tt.

(** [response.raise_s_status()], line 67: [Response] has no attribute of
    that name, so evaluating the attribute raises. *)
Definition raise_s_status (r : Response) : py unit :=
  Raise (Exn AttributeError "'Response' object has no attribute 'raise_s_status'").

(** [Response.json]. *)
Definition response_json (r : Response) : py pyval :=
  match body r with
  | Json v => Ok v
  | NotJson detail => Raise (Exn JSONDecodeError detail)
  | JsonDigits detail => Raise (Exn ValueError detail)
  | JsonDepth detail => Raise (Exn RecursionError detail)
  end.

(** ** The page and the wire *)

Inductive event :=
  | StWarning (msg : string)
  | StError (msg : string)
  | HttpPost (target : string) (payload : pyval)
  | StAudio (data : list byte).

(** A call that shows things and may raise. *)
Definition io (A : Type) : Type := list event * py A.

Definition io_ret {A} (a : A) : io A := ([], Ok a).

Definition io_bind {A B} (m : io A) (k : A -> io B) : io B :=
  match m with
  | (l, Ok a) => let '(l', r) := k a in (l ++ l', r)
  | (l, Raise e) => (l, Raise e)
  end.

Definition io_lift {A} (m : py A) : io A := ([], m).

Definition emit (e : event) : io unit := ([e], Ok tt).

(** [try: body / except <classes> as e: handler]: the first clause whose
    classes contain the class of the exception runs; with none, the
    exception goes on to the caller. *)
Fixpoint io_try {A} (m : io A) (clauses : list ((exn_class -> bool) * (exn -> io A)))
  : io A :=
  match m with
  | (l, Ok a) => (l, Ok a)
  | (l, Raise e) =>
      match clauses with
      | [] => (l, Raise e)
      | (catches, handler) :: rest =>
          if catches (exn_cls e) then let '(l', r) := handler e in (l ++ l', r)
          else io_try (l, Raise e) rest
      end
  end.

Declare Scope io_scope.
Delimit Scope io_scope with io.
Notation "x <- m ;; k" := (io_bind m (fun x => k))
  (at level 100, m at next level, right associativity) : io_scope.
Notation "m ;;; k" := (io_bind m (fun _ => k))
  (at level 100, right associativity) : io_scope.

Definition requests_post (net : network) (target : string) (payload : pyval) : io Response :=
  (emit (HttpPost target payload) ;;;
   match net target payload with
   | PostFails t detail => io_lift (Raise (Exn (transport_class t) detail))
   | PostReturns r => io_ret r
   end)%io.

(** ** Gemini API configuration *)

Definition TEXT_GENERATION_MODEL : string := "gemini-2.5-flash-preview-05-20".
Definition TTS_MODEL : string := "gemini-2.5-flash-preview-tts".

Definition endpoint (model api_key : string) : string :=
  "https://generativelanguage.googleapis.com/v1beta/models/" +:+ model
    +:+ ":generateContent?key=" +:+ api_key.

Definition text_parts (text : pyval) : pyval :=
  PList [PDict [("text", text)]].

(** ** [generate_story] *)

Definition system_prompt : string :=
  "You are a gentle and soothing storyteller, specializing in creating calming and imaginative bedtime stories for children. The stories should be a few paragraphs long and have a happy, reassuring ending.".

Definition story_payload (prompt : string) : pyval :=
  PDict [("contents", PList [PDict [("parts", text_parts (PStr prompt))]]);
         ("systemInstruction", PDict [("parts", text_parts (PStr system_prompt))])].

(** [result['candidates'][0]['content']['parts'][0]]. *)
Definition first_part (result : pyval) : py pyval :=
  (cs <- getitem_str result "candidates" ;;
   c <- getitem_0 cs ;;
   content <- getitem_str c "content" ;;
   parts <- getitem_str content "parts" ;;
   getitem_0 parts)%py.

Definition generate_story (net : network) (prompt api_key : string) : io pyval :=
  io_try
    (response <- requests_post net (endpoint TEXT_GENERATION_MODEL api_key)
                   (story_payload prompt) ;;
     _ <- io_lift (raise_for_status response) ;;
     result <- io_lift (response_json response) ;;
     story_text <- io_lift (part <- first_part result ;; getitem_str part "text")%py ;;
     io_ret story_text)%io
    [(is_RequestException,
      fun e =>
        (emit (StError ("Error generating story. Check your API key and try again: "
                        +:+ exn_str e)) ;;;
         io_ret PNone)%io)].

(** ** Python strings: [str.split] and [int] *)

Definition LF : ascii := "010"%char.
Definition nl : string := String LF EmptyString.

Fixpoint str_skip (n : nat) (s : string) : string :=
  match n, s with
  | S n', String _ s' => str_skip n' s'
  | _, _ => s
  end.

(** The first occurrence of [sep] in [s], scanning from the left: the text
    before it and the text after it ([s.partition(sep)] without the
    middle), or [None] when [sep] does not occur. *)
Fixpoint str_find (sep s : string) : option (string * string) :=
  if String.prefix sep s then Some (EmptyString, str_skip (String.length sep) s)
  else
    match s with
    | EmptyString => None
    | String c s' =>
        match str_find sep s' with
        | Some (a, b) => Some (String c a, b)
        | None => None
        end
    end.

(** [s.split(sep)] for a non-empty [sep]: cut at each occurrence found
    from the left, resuming after it.  Every cut consumes a character, so
    [S (length s)] rounds are enough ([str_split_fuel_enough]). *)
Fixpoint str_split_fuel (fuel : nat) (sep s : string) : list string :=
  match fuel with
  | O => [s]
  | S fuel' =>
      match str_find sep s with
      | None => [s]
      | Some (a, b) => a :: str_split_fuel fuel' sep b
      end
  end.

Definition str_split (sep s : string) : list string :=
  str_split_fuel (S (String.length s)) sep s.

(** [l[1]] on a list of strings. *)
Definition item_1 (l : list string) : py string :=
  match l with
  | _ :: x :: _ => Ok x
  | _ => Raise (Exn IndexError "list index out of range")
  end.

(** The white space [int] skips at both ends of a [str].  A character
    below 127 is tested with C's [isspace] (tab to carriage return, and
    space: not the separators 28..31); one from 127 on is first replaced by
    a space when [str.isspace] holds of it (NEL and the no-break space). *)
Definition is_int_space (c : ascii) : bool :=
  let n := code c in
  ((9 <=? n) && (n <=? 13)) || (n =? 32) || (n =? 133) || (n =? 160).

Fixpoint lstrip (s : string) : string :=
  match s with
  | String c s' => if is_int_space c then lstrip s' else s
  | EmptyString => EmptyString
  end.

Definition str_rev (s : string) : string :=
  string_of_list_ascii (rev (list_ascii_of_string s)).

Definition strip (s : string) : string := str_rev (lstrip (str_rev (lstrip s))).

Definition digit_val (c : ascii) : option Z :=
  let n := code c in
  if (48 <=? n) && (n <=? 57) then Some (n - 48) else None.

Inductive digit_state := AtStart | AfterDigit | AfterUnderscore.

(** Decimal digits with single underscores between them. *)
Fixpoint parse_digits (s : string) (st : digit_state) (acc : Z) : option Z :=
  match s with
  | EmptyString => match st with AfterDigit => Some acc | _ => None end
  | String c s' =>
      match digit_val c with
      | Some d => parse_digits s' AfterDigit (10 * acc + d)
      | None =>
          if Ascii.eqb c "_" then
            match st with
            | AfterDigit => parse_digits s' AfterUnderscore acc
            | _ => None
            end
          else None
      end
  end.

Definition int_literal (s : string) : option Z :=
  match strip s with
  | String "+" r => parse_digits r AtStart 0
  | String "-" r => Z.opp <$> parse_digits r AtStart 0
  | r => parse_digits r AtStart 0
  end.

Definition unsigned_part (s : string) : string :=
  match s with
  | String "+" r => r
  | String "-" r => r
  | r => r
  end.

(** The scan of [int] over the digits and underscores that follow the
    sign: the number of digits up to the first other character, or [None]
    where two underscores meet or an underscore ends the run. *)
Fixpoint count_digits (s : string) (after_underscore : bool) (digits : Z) : option Z :=
  match s with
  | EmptyString => if after_underscore then None else Some digits
  | String c s' =>
      match digit_val c with
      | Some _ => count_digits s' false (digits + 1)
      | None =>
          if after_underscore then None
          else if Ascii.eqb c "_" then count_digits s' true digits
          else Some digits
      end
  end.

(** [sys.get_int_max_str_digits()], at its default. *)
Definition MAX_STR_DIGITS : Z := 4300.

(** The digits counted by [int] when they are more than the limit; the
    count is made once the underscores have been accepted and before the
    rest of the text is looked at. *)
Definition digits_over_limit (s : string) : option Z :=
  match unsigned_part (strip s) with
  | String "_" _ => None
  | r =>
      match count_digits r false 0 with
      | Some n => if MAX_STR_DIGITS <? n then Some n else None
      | None => None
      end
  end.

Definition digit_limit_text (n : Z) : string :=
  "Exceeds the limit (" +:+ pretty MAX_STR_DIGITS
    +:+ " digits) for integer string conversion: value has " +:+ pretty n
    +:+ " digits; use sys.set_int_max_str_digits() to increase the limit".

Fixpoint str_take (n : nat) (s : string) : string :=
  match n, s with
  | S n', String c s' => String c (str_take n' s')
  | _, _ => EmptyString
  end.

(** [int(s)] for a [str]: surrounding white space, an optional sign, then
    digits, no more of them than the interpreter's limit.  The message of
    an invalid literal shows the first 200 characters of [repr(s)]. *)
Definition py_int (s : string) : py Z :=
  match digits_over_limit s with
  | Some n => Raise (Exn ValueError (digit_limit_text n))
  | None =>
      match int_literal s with
      | Some z => Ok z
      | None =>
          Raise (Exn ValueError
            ("invalid literal for int() with base 10: " +:+ str_take 200 (quote s)))
      end
  end.

(** [mime_type.split('rate=')]: only a [str] has the method. *)
Definition split_rate (mime_type : pyval) : py (list string) :=
  match mime_type with
  | PStr s => Ok (str_split "rate=" s)
  | _ => Raise (Exn AttributeError "object has no attribute 'split'")
  end.

(** Lines 77-78 on a [str]. *)
Definition sample_rate_of (mime_type : string) : py Z :=
  (sample_rate_str <- item_1 (str_split "rate=" mime_type) ;;
   py_int sample_rate_str)%py.

(** ** [base64.b64decode] *)

Definition byte_of_Z (z : Z) : byte :=
  match Byte.of_N (Z.to_N z) with
  | Some b => b
  | None => x00
  end.

Definition b64_value (c : ascii) : option Z :=
  let n := code c in
  if (65 <=? n) && (n <=? 90) then Some (n - 65)
  else if (97 <=? n) && (n <=? 122) then Some (n - 71)
  else if (48 <=? n) && (n <=? 57) then Some (n + 4)
  else if n =? 43 then Some 62
  else if n =? 47 then Some 63
  else None.

Record a2b_state := {
  quad_pos : Z;
  leftchar : Z;
  pads : Z;
  bin_data : list byte
}.

(** One character of a valid sextet [v] in [binascii.a2b_base64]. *)
Definition a2b_sextet (v : Z) (st : a2b_state) : a2b_state :=
  if quad_pos st =? 0 then
    {| quad_pos := 1; leftchar := v; pads := 0; bin_data := bin_data st |}
  else if quad_pos st =? 1 then
    {| quad_pos := 2; leftchar := Z.land v 15; pads := 0;
       bin_data := bin_data st ++ [byte_of_Z (Z.lor (Z.shiftl (leftchar st) 2) (Z.shiftr v 4))] |}
  else if quad_pos st =? 2 then
    {| quad_pos := 3; leftchar := Z.land v 3; pads := 0;
       bin_data := bin_data st ++ [byte_of_Z (Z.lor (Z.shiftl (leftchar st) 4) (Z.shiftr v 2))] |}
  else
    {| quad_pos := 0; leftchar := 0; pads := 0;
       bin_data := bin_data st ++ [byte_of_Z (Z.lor (Z.shiftl (leftchar st) 6) v)] |}.

(** The loop of [a2b_base64] without [strict_mode]: characters outside
    the alphabet are skipped, a complete pad sequence ends the input. *)
Fixpoint a2b_loop (s : string) (st : a2b_state) : py (list byte) :=
  match s with
  | EmptyString =>
      if quad_pos st =? 0 then Ok (bin_data st)
      else if quad_pos st =? 1 then
        Raise (Exn binascii_Error
          "Invalid base64-encoded string: number of data characters cannot be 1 more than a multiple of 4")
      else Raise (Exn binascii_Error "Incorrect padding")
  | String c s' =>
      if Ascii.eqb c "=" then
        if 2 <=? quad_pos st then
          if 4 <=? quad_pos st + (pads st + 1) then Ok (bin_data st)
          else a2b_loop s' {| quad_pos := quad_pos st; leftchar := leftchar st;
                              pads := pads st + 1; bin_data := bin_data st |}
        else a2b_loop s' st
      else
        match b64_value c with
        | Some v => a2b_loop s' (a2b_sextet v st)
        | None => a2b_loop s' st
        end
  end.

Definition is_ascii (s : string) : bool :=
  forallb (fun c => code c <? 128) (list_ascii_of_string s).

Definition b64decode (s : pyval) : py (list byte) :=
  match s with
  | PStr t =>
      if is_ascii t then
        a2b_loop t {| quad_pos := 0; leftchar := 0; pads := 0; bin_data := [] |}
      else Raise (Exn ValueError "string argument should contain only ASCII characters")
  | _ => Raise (Exn TypeError "argument should be a bytes-like object or ASCII string")
  end.

(** ** [struct.pack], little-endian, and [io.BytesIO] *)

Definition bytes (s : string) : list byte := list_byte_of_string s.

Fixpoint le_bytes (n : nat) (v : Z) : list byte :=
  match n with
  | O => []
  | S n' => byte_of_Z (v mod 256) :: le_bytes n' (v / 256)
  end.

(** What [struct.pack] says of a value that does not go into a field of
    [bits] bits named [fmt]: the value is first turned into a C
    [unsigned long], which fails below 0 and from 2^64 on; the range of
    the field is looked at after that. *)
Definition struct_range_text (fmt : string) (bits v : Z) : string :=
  if (0 <=? v) && (v <? 2 ^ 64) then
    "'" +:+ fmt +:+ "' format requires 0 <= number <= " +:+ pretty (2 ^ bits - 1)
  else "argument out of range".

(** [struct.pack('<L', v)]: no wrap-around, a value outside the field
    raises. *)
Definition pack_L (v : Z) : py (list byte) :=
  if (0 <=? v) && (v <? 2 ^ 32) then Ok (le_bytes 4 v)
  else Raise (Exn struct_error (struct_range_text "L" 32 v)).

Definition pack_H (v : Z) : py (list byte) :=
  if (0 <=? v) && (v <? 2 ^ 16) then Ok (le_bytes 2 v)
  else Raise (Exn struct_error (struct_range_text "H" 16 v)).

Record BytesIO := { buf : list byte; pos : nat }.

(** [f.write(data)] at the current position: overwrites, and extends the
    buffer where the data goes past its end. *)
Definition bio_write (data : list byte) (f : BytesIO) : BytesIO :=
  match data with
  | [] => f
  | _ =>
      {| buf := take (pos f) (buf f) ++ replicate (pos f - length (buf f))%nat x00
                  ++ data ++ drop (pos f + length data)%nat (buf f);
         pos := (pos f + length data)%nat |}
  end.

Definition bio_seek (p : nat) (f : BytesIO) : BytesIO := {| buf := buf f; pos := p |}.

(** [f.read()]: everything from the current position. *)
Definition bio_read (f : BytesIO) : list byte := drop (pos f) (buf f).

(** ** [wave.Wave_write] *)

Module Wave.

Definition WAVE_FORMAT_PCM : Z := 1.

Record Wave_write := {
  file : BytesIO;
  nchannels : Z;
  sampwidth : Z;
  framerate : Z;
  nframes : Z;
  nframeswritten : Z;
  datawritten : Z;
  datalength : Z;
  headerwritten : bool;
  form_length_pos : nat;
  data_length_pos : nat
}.

(** A method of the writer: it updates the object and returns or raises;
    what it did to the object before raising stays done. *)
Definition method (A : Type) : Type := Wave_write -> Wave_write * py A.

Definition ret {A} (a : A) : method A := fun w => (w, Ok a).
Definition throw {A} (c : exn_class) (msg : string) : method A :=
  fun w => (w, Raise (Exn c msg)).
Definition bind {A B} (m : method A) (k : A -> method B) : method B :=
  fun w =>
    match m w with
    | (w', Ok a) => k a w'
    | (w', Raise e) => (w', Raise e)
    end.
Definition get : method Wave_write := fun w => (w, Ok w).
Definition modify (f : Wave_write -> Wave_write) : method unit := fun w => (f w, Ok tt).
Definition lift {A} (m : py A) : method A := fun w => (w, m).

Declare Scope wave_scope.
Delimit Scope wave_scope with wave.
Notation "x <- m ;; k" := (bind m (fun x => k))
  (at level 100, m at next level, right associativity) : wave_scope.
Notation "m ;;; k" := (bind m (fun _ => k))
  (at level 100, right associativity) : wave_scope.

Definition set_file (f : BytesIO) (w : Wave_write) : Wave_write :=
  {| file := f; nchannels := nchannels w; sampwidth := sampwidth w;
     framerate := framerate w; nframes := nframes w;
     nframeswritten := nframeswritten w; datawritten := datawritten w;
     datalength := datalength w; headerwritten := headerwritten w;
     form_length_pos := form_length_pos w; data_length_pos := data_length_pos w |}.
Definition set_nchannels (n : Z) (w : Wave_write) : Wave_write :=
  {| file := file w; nchannels := n; sampwidth := sampwidth w;
     framerate := framerate w; nframes := nframes w;
     nframeswritten := nframeswritten w; datawritten := datawritten w;
     datalength := datalength w; headerwritten := headerwritten w;
     form_length_pos := form_length_pos w; data_length_pos := data_length_pos w |}.
Definition set_sampwidth (n : Z) (w : Wave_write) : Wave_write :=
  {| file := file w; nchannels := nchannels w; sampwidth := n;
     framerate := framerate w; nframes := nframes w;
     nframeswritten := nframeswritten w; datawritten := datawritten w;
     datalength := datalength w; headerwritten := headerwritten w;
     form_length_pos := form_length_pos w; data_length_pos := data_length_pos w |}.
Definition set_framerate (n : Z) (w : Wave_write) : Wave_write :=
  {| file := file w; nchannels := nchannels w; sampwidth := sampwidth w;
     framerate := n; nframes := nframes w;
     nframeswritten := nframeswritten w; datawritten := datawritten w;
     datalength := datalength w; headerwritten := headerwritten w;
     form_length_pos := form_length_pos w; data_length_pos := data_length_pos w |}.
Definition set_nframes (n : Z) (w : Wave_write) : Wave_write :=
  {| file := file w; nchannels := nchannels w; sampwidth := sampwidth w;
     framerate := framerate w; nframes := n;
     nframeswritten := nframeswritten w; datawritten := datawritten w;
     datalength := datalength w; headerwritten := headerwritten w;
     form_length_pos := form_length_pos w; data_length_pos := data_length_pos w |}.
Definition set_written (frames data : Z) (w : Wave_write) : Wave_write :=
  {| file := file w; nchannels := nchannels w; sampwidth := sampwidth w;
     framerate := framerate w; nframes := nframes w;
     nframeswritten := frames; datawritten := data;
     datalength := datalength w; headerwritten := headerwritten w;
     form_length_pos := form_length_pos w; data_length_pos := data_length_pos w |}.
Definition set_datalength (n : Z) (w : Wave_write) : Wave_write :=
  {| file := file w; nchannels := nchannels w; sampwidth := sampwidth w;
     framerate := framerate w; nframes := nframes w;
     nframeswritten := nframeswritten w; datawritten := datawritten w;
     datalength := n; headerwritten := headerwritten w;
     form_length_pos := form_length_pos w; data_length_pos := data_length_pos w |}.
Definition set_headerwritten (b : bool) (w : Wave_write) : Wave_write :=
  {| file := file w; nchannels := nchannels w; sampwidth := sampwidth w;
     framerate := framerate w; nframes := nframes w;
     nframeswritten := nframeswritten w; datawritten := datawritten w;
     datalength := datalength w; headerwritten := b;
     form_length_pos := form_length_pos w; data_length_pos := data_length_pos w |}.
Definition set_form_length_pos (p : nat) (w : Wave_write) : Wave_write :=
  {| file := file w; nchannels := nchannels w; sampwidth := sampwidth w;
     framerate := framerate w; nframes := nframes w;
     nframeswritten := nframeswritten w; datawritten := datawritten w;
     datalength := datalength w; headerwritten := headerwritten w;
     form_length_pos := p; data_length_pos := data_length_pos w |}.
Definition set_data_length_pos (p : nat) (w : Wave_write) : Wave_write :=
  {| file := file w; nchannels := nchannels w; sampwidth := sampwidth w;
     framerate := framerate w; nframes := nframes w;
     nframeswritten := nframeswritten w; datawritten := datawritten w;
     datalength := datalength w; headerwritten := headerwritten w;
     form_length_pos := form_length_pos w; data_length_pos := p |}.

(** [self._file.write(data)], [self._file.seek(p, 0)]. *)
Definition file_write (data : list byte) : method unit :=
  modify (fun w => set_file (bio_write data (file w)) w).
Definition file_seek (p : nat) : method unit :=
  modify (fun w => set_file (bio_seek p (file w)) w).

(** [wave.open(f, 'wb')]: [initfp]. *)
Definition open (f : BytesIO) : Wave_write :=
  {| file := f; nchannels := 0; sampwidth := 0; framerate := 0; nframes := 0;
     nframeswritten := 0; datawritten := 0; datalength := 0;
     headerwritten := false; form_length_pos := 0%nat; data_length_pos := 0%nat |}.

Definition setnchannels (n : Z) : method unit :=
  (w <- get ;;
   if negb (datawritten w =? 0) then
     throw wave_Error "cannot change parameters after starting to write"
   else if n <? 1 then throw wave_Error "bad # of channels"
   else modify (set_nchannels n))%wave.

Definition setsampwidth (n : Z) : method unit :=
  (w <- get ;;
   if negb (datawritten w =? 0) then
     throw wave_Error "cannot change parameters after starting to write"
   else if (n <? 1) || (4 <? n) then throw wave_Error "bad sample width"
   else modify (set_sampwidth n))%wave.

(** [int(round(framerate))] is the identity on an [int]. *)
Definition setframerate (n : Z) : method unit :=
  (w <- get ;;
   if negb (datawritten w =? 0) then
     throw wave_Error "cannot change parameters after starting to write"
   else if n <=? 0 then throw wave_Error "bad frame rate"
   else modify (set_framerate n))%wave.

(** [struct.pack('<L4s4sLHHLLHH4s', ...)] of [_write_header]. *)
Definition pack_fmt (w : Wave_write) : py (list byte) :=
  (riff_len <- pack_L (36 + datalength w) ;;
   fmt_len <- pack_L 16 ;;
   tag <- pack_H WAVE_FORMAT_PCM ;;
   chans <- pack_H (nchannels w) ;;
   rate <- pack_L (framerate w) ;;
   byte_rate <- pack_L (nchannels w * framerate w * sampwidth w) ;;
   align <- pack_H (nchannels w * sampwidth w) ;;
   bits <- pack_H (sampwidth w * 8) ;;
   Ok (riff_len ++ bytes "WAVE" ++ bytes "fmt " ++ fmt_len ++ tag ++ chans
         ++ rate ++ byte_rate ++ align ++ bits ++ bytes "data"))%py.

Definition _write_header (initlength : Z) : method unit :=
  (file_write (bytes "RIFF") ;;;
   w <- get ;;
   (if nframes w =? 0
    then modify (set_nframes (initlength / (nchannels w * sampwidth w)))
    else ret tt) ;;;
   w <- get ;;
   modify (set_datalength (nframes w * nchannels w * sampwidth w)) ;;;
   w <- get ;;
   modify (set_form_length_pos (pos (file w))) ;;;
   w <- get ;;
   fmt <- lift (pack_fmt w) ;;
   file_write fmt ;;;
   w <- get ;;
   modify (set_data_length_pos (pos (file w))) ;;;
   w <- get ;;
   len <- lift (pack_L (datalength w)) ;;
   file_write len ;;;
   modify (set_headerwritten true))%wave.

Definition _ensure_header_written (datasize : Z) : method unit :=
  (w <- get ;;
   if headerwritten w then ret tt
   else if nchannels w =? 0 then throw wave_Error "# channels not specified"
   else if sampwidth w =? 0 then throw wave_Error "sample width not specified"
   else if framerate w =? 0 then throw wave_Error "sampling rate not specified"
   else _write_header datasize)%wave.

Definition _patchheader : method unit :=
  (w <- get ;;
   if datawritten w =? datalength w then ret tt
   else
     let curpos := pos (file w) in
     file_seek (form_length_pos w) ;;;
     riff_len <- lift (pack_L (36 + datawritten w)) ;;
     file_write riff_len ;;;
     file_seek (data_length_pos w) ;;;
     len <- lift (pack_L (datawritten w)) ;;
     file_write len ;;;
     file_seek curpos ;;;
     modify (set_datalength (datawritten w)))%wave.

(** On a little-endian host the samples are written as they are. *)
Definition writeframesraw (data : list byte) : method unit :=
  (_ensure_header_written (Z.of_nat (length data)) ;;;
   w <- get ;;
   let n := Z.of_nat (length data) / (sampwidth w * nchannels w) in
   file_write data ;;;
   modify (set_written (nframeswritten w + n) (datawritten w + Z.of_nat (length data))))%wave.

Definition writeframes (data : list byte) : method unit :=
  (writeframesraw data ;;;
   w <- get ;;
   if negb (datalength w =? datawritten w) then _patchheader else ret tt)%wave.

Definition close : method unit :=
  (_ensure_header_written 0 ;;;
   w <- get ;;
   if negb (datalength w =? datawritten w) then _patchheader else ret tt)%wave.

(** [with wave.open(f, 'wb') as wav_file: body]: [close] runs when the
    body ends, also by an exception; an exception of [close] replaces
    the one of the body. *)
Definition with_open (f : BytesIO) (body : method unit) : BytesIO * py unit :=
  let '(w, r) := body (open f) in
  let '(w', r') := close w in
  (file w', match r' with Raise e => Raise e | Ok _ => r end).

End Wave.

(** Lines 81-89: the WAV file written into a fresh [BytesIO] and read
    back from its start. *)
Definition write_wav (sample_rate : Z) (audio_data_pcm : list byte) : py (list byte) :=
  let '(audio_io, r) :=
    Wave.with_open {| buf := []; pos := 0%nat |}
      (Wave.bind (Wave.setnchannels 1) (fun _ =>
       Wave.bind (Wave.setsampwidth 2) (fun _ =>
       Wave.bind (Wave.setframerate sample_rate) (fun _ =>
       Wave.writeframes audio_data_pcm)))) in
  (_ <- r ;; Ok (bio_read (bio_seek 0 audio_io)))%py.

(** ** [text_to_speech] *)

Definition tts_payload (text : pyval) : pyval :=
  PDict [("contents", PList [PDict [("parts", text_parts text)]]);
         ("generationConfig",
          PDict [("responseModalities", PList [PStr "AUDIO"]);
                 ("speechConfig",
                  PDict [("voiceConfig",
                          PDict [("prebuiltVoiceConfig",
                                  PDict [("voiceName", PStr "Puck")])])])])].

(** [result['candidates'][0]['content']['parts'][0]['inlineData'][field]]. *)
Definition inline_field (result : pyval) (field : string) : py pyval :=
  (part <- first_part result ;;
   inline <- getitem_str part "inlineData" ;;
   getitem_str inline field)%py.

(** Lines 70-89: from the parsed response to the bytes of the WAV file. *)
Definition audio_of_result (result : pyval) : py (list byte) :=
  (audio_data_b64 <- inline_field result "data" ;;
   mime_type <- inline_field result "mimeType" ;;
   audio_data_pcm <- b64decode audio_data_b64 ;;
   pieces <- split_rate mime_type ;;
   sample_rate_str <- item_1 pieces ;;
   sample_rate <- py_int sample_rate_str ;;
   write_wav sample_rate audio_data_pcm)%py.

(** Lines 68-89: the [try] block from [response.json()] on. *)
Definition tts_after_status (response : Response) : io (option (list byte)) :=
  (result <- io_lift (response_json response) ;;
   audio <- io_lift (audio_of_result result) ;;
   io_ret (Some audio))%io.

(** Lines 91-96: the two [except] clauses. *)
Definition tts_handlers : list ((exn_class -> bool) * (exn -> io (option (list byte)))) :=
  [(is_RequestException,
    fun e =>
      (emit (StError ("Error generating audio. Check your API key and try again: "
                      +:+ exn_str e)) ;;;
       io_ret None)%io);
   (is_KeyError_or_IndexError,
    fun e =>
      (emit (StError ("Unexpected API response structure: " +:+ exn_str e)) ;;;
       io_ret None)%io)].

Definition text_to_speech (net : network) (text : pyval) (api_key : string)
  : io (option (list byte)) :=
  io_try
    (response <- requests_post net (endpoint TTS_MODEL api_key) (tts_payload text) ;;
     _ <- io_lift (raise_s_status response) ;;
     tts_after_status response)%io
    tts_handlers.

(** Lines 68-96 on a response: what [text_to_speech] does with it once
    the status line is passed. *)
Definition tts_from_response (response : Response) : io (option (list byte)) :=
  io_try (tts_after_status response) tts_handlers.

(** ** The form and the prompt *)

Inductive Genre := Fantasy | NatureAdventure | FairyTale | AnimalStory.

Definition genre_option (g : Genre) : string :=
  match g with
  | Fantasy => "Fantasy"
  | NatureAdventure => "Nature Adventure"
  | FairyTale => "Fairy Tale"
  | AnimalStory => "Animal Story"
  end.

Inductive AgeGroup := Toddlers | Children.

Definition age_group_option (a : AgeGroup) : string :=
  match a with
  | Toddlers => "Toddlers (1-3 years)"
  | Children => "Children (4-8 years)"
  end.

(** The button pressed in the run, if any: a press reruns the script and
    only the pressed button returns [True]. *)
Inductive click := NoClick | ClickGenerate | ClickSpeak.

Record widgets := {
  api_key : string;
  voice_input_param : option string;
  characters : string;
  genre : Genre;
  age_group : AgeGroup;
  tips : string;
  clicked : click
}.

Definition intro : string := "Create a story for the following details:".

(** Lines 189-194. *)
Definition story_prompt (w : widgets) : string :=
  let story_prompt := intro +:+ nl +:+ nl in
  let story_prompt := story_prompt +:+ ("Characters: " +:+ characters w +:+ nl) in
  let story_prompt := story_prompt +:+ ("Genre: " +:+ genre_option (genre w) +:+ nl) in
  let story_prompt := story_prompt +:+ ("Age Group: " +:+ age_group_option (age_group w) +:+ nl) in
  if negb (String.eqb (tips w) "") then
    story_prompt +:+ ("Additional Tips: " +:+ tips w +:+ nl)
  else story_prompt.

(** ** One run of the script *)

Record run := {
  session : gmap string pyval;
  page : list event;
  fault : option exn   (* the exception that ended the run, if one did *)
}.

(** Lines 153-171 of the sidebar: the warning for a missing key, and the
    voice transcript taken from the query parameter. *)
Definition sidebar (w : widgets) (ss : gmap string pyval) : gmap string pyval * list event :=
  let warning :=
    if String.eqb (api_key w) "" then
      [StWarning "Please enter your API key to proceed. You can get one from the Google AI Studio."]
    else [] in
  let ss :=
    match voice_input_param w with
    | Some v => if String.eqb v "" then ss else <["voice_text" := PStr v]> ss
    | None => ss
    end in
  let ss :=
    match ss !! "voice_text" with
    | Some _ => ss
    | None => <["voice_text" := PStr ""]> ss
    end in
  (ss, warning).

(** Lines 182-199. *)
Definition on_generate (net : network) (w : widgets) (ss : gmap string pyval)
  : gmap string pyval * io unit :=
  match clicked w with
  | ClickGenerate =>
      if String.eqb (api_key w) "" then
        (ss, emit (StError "Please enter your Gemini API key in the sidebar."))
      else if String.eqb (characters w) "" then
        (ss, emit (StError "Please enter at least one character to get started."))
      else
        match generate_story net (story_prompt w) (api_key w) with
        | (shown, Ok story) =>
            if truthy story then (<["story_text" := story]> ss, (shown, Ok tt))
            else (ss, (shown, Ok tt))
        | (shown, Raise e) => (ss, (shown, Raise e))
        end
  | _ => (ss, io_ret tt)
  end.

(** Lines 201-212. *)
Definition story_area (net : network) (w : widgets) (ss : gmap string pyval) : io unit :=
  match ss !! "story_text" with
  | Some story_text =>
      match clicked w with
      | ClickSpeak =>
          (audio_data <- text_to_speech net story_text (api_key w) ;;
           match audio_data with
           | Some (b :: data) => emit (StAudio (b :: data))
           | _ => io_ret tt
           end)%io
      | _ => io_ret tt
      end
  | None => io_ret tt
  end.

Definition run_script (net : network) (w : widgets) (ss : gmap string pyval) : run :=
  let '(ss1, shown1) := sidebar w ss in
  match on_generate net w ss1 with
  | (ss2, (shown2, Raise e)) =>
      {| session := ss2; page := shown1 ++ shown2; fault := Some e |}
  | (ss2, (shown2, Ok _)) =>
      match story_area net w ss2 with
      | (shown3, Raise e) =>
          {| session := ss2; page := shown1 ++ shown2 ++ shown3; fault := Some e |}
      | (shown3, Ok _) =>
          {| session := ss2; page := shown1 ++ shown2 ++ shown3; fault := None |}
      end
  end.

(** ** Vocabulary of the statements *)

(** The lines of a text: each ends at a line feed, the last one also at
    the end of the text. *)
Fixpoint lines (s : string) : list string :=
  match s with
  | EmptyString => []
  | String c s' =>
      if Ascii.eqb c LF then EmptyString :: lines s'
      else
        match lines s' with
        | [] => [String c EmptyString]
        | l :: ls => String c l :: ls
        end
  end.

(** A text without a line feed, as a single-line input field holds. *)
Definition single_line (s : string) : bool :=
  forallb (fun c => negb (Ascii.eqb c LF)) (list_ascii_of_string s).

Definition nonempty (s : string) : bool := negb (String.eqb s "").

Definition is_tips_line (l : string) : bool := String.prefix "Additional Tips: " l.

Definition has_tips_line (prompt : string) : bool := existsb is_tips_line (lines prompt).

(** [str.isspace] on one character below 256: tab to carriage return, the
    four separators 28..31, space, NEL and the no-break space. *)
Definition is_space (c : ascii) : bool :=
  let n := code c in
  ((9 <=? n) && (n <=? 13)) || ((28 <=? n) && (n <=? 32)) || (n =? 133) || (n =? 160).

(** A text of white space only, in the sense of [str.isspace]. *)
Definition whitespace_only (s : string) : bool :=
  forallb is_space (list_ascii_of_string s).

(** [sep in s]. *)
Definition occurs (sep s : string) : bool :=
  match str_find sep s with
  | Some _ => true
  | None => false
  end.

(** The reading of lines 77-78 that takes all the text after the first
    ['rate=']. *)
Definition rate_of_suffix (mime_type : string) : py Z :=
  match str_find "rate=" mime_type with
  | Some (_, suffix) => py_int suffix
  | None => Raise (Exn IndexError "list index out of range")
  end.

(** The 44 bytes of a RIFF/WAVE header for mono 16-bit PCM at [rate]
    with [n] bytes of samples. *)
Definition wav_header (rate n : Z) : list byte :=
  bytes "RIFF" ++ le_bytes 4 (36 + n) ++ bytes "WAVE" ++ bytes "fmt "
    ++ le_bytes 4 16 ++ le_bytes 2 1 ++ le_bytes 2 1
    ++ le_bytes 4 rate ++ le_bytes 4 (rate * 2) ++ le_bytes 2 2 ++ le_bytes 2 16
    ++ bytes "data" ++ le_bytes 4 n.

(** The POSTs among the events of a page. *)
Definition is_post (e : event) : bool :=
  match e with
  | HttpPost _ _ => true
  | _ => false
  end.

Definition posts (shown : list event) : list event := filter (fun e => is_post e = true) shown.

(** A successful response carrying [result]. *)
Definition ok_response (result : pyval) : Response :=
  {| status_code := 200; reason := "OK"; url := ""; body := Json result |}.

(** The expected shape of a generation response with story text [text]. *)
Definition story_result (text : pyval) : pyval :=
  PDict [("candidates",
          PList [PDict [("content", PDict [("parts", PList [PDict [("text", text)]])])]])].

(** The expected shape of a synthesis response. *)
Definition audio_result (data mime_type : pyval) : pyval :=
  PDict [("candidates",
          PList [PDict [("content",
                         PDict [("parts",
                                 PList [PDict [("inlineData",
                                                PDict [("data", data);
                                                       ("mimeType", mime_type)])]])])]])].

(** The writer once lines 83-85 have set one channel, two bytes a sample
    and the frame rate. *)
Definition configured (r : Z) (f : BytesIO) : Wave.Wave_write :=
  Wave.set_framerate r (Wave.set_sampwidth 2 (Wave.set_nchannels 1 (Wave.open f))).

(** The header between the RIFF length and the data length. *)
(** The first 32-bit field that [Wave_write._write_header] cannot pack,
    in the order of its format: the RIFF length over the data length [d],
    the rate [r], the byte rate. *)
Definition overflowing_field (r d : Z) : Z :=
  if 2 ^ 32 <=? 36 + d then 36 + d
  else if 2 ^ 32 <=? r then r
  else 1 * r * 2.

Definition hdr_mid (r : Z) : list byte :=
  bytes "WAVE" ++ bytes "fmt "
    ++ le_bytes 4 16 ++ le_bytes 2 1 ++ le_bytes 2 1
    ++ le_bytes 4 r ++ le_bytes 4 (r * 2) ++ le_bytes 2 2 ++ le_bytes 2 16
    ++ bytes "data".

Definition hdr_fmt (r dl : Z) : list byte := le_bytes 4 (36 + dl) ++ hdr_mid r.

(** The writer once the header is out: [dw] bytes of samples written,
    [dl] announced in the header. *)
Definition after_header (r : Z) (f : BytesIO) (nf dw dl : Z) : Wave.Wave_write :=
  {| Wave.file := f; Wave.nchannels := 1; Wave.sampwidth := 2; Wave.framerate := r;
     Wave.nframes := nf; Wave.nframeswritten := dw / (2 * 1); Wave.datawritten := dw;
     Wave.datalength := dl; Wave.headerwritten := true;
     Wave.form_length_pos := 4; Wave.data_length_pos := 40 |}.

(** The generate action reaches the client: the button was pressed with
    a key and characters in the form. *)
Definition reaches_generate (w : widgets) : bool :=
  match clicked w with
  | ClickGenerate => negb (String.eqb (api_key w) "") && negb (String.eqb (characters w) "")
  | _ => false
  end.

(** ** Concrete inputs *)

Definition server_error : Response :=
  {| status_code := 500; reason := "Internal Server Error"; url := "";
     body := NotJson "Expecting value: line 1 column 1 (char 0)" |}.

(** A server that answers every POST with a story of the given text. *)
Definition answers (text : pyval) : network :=
  fun _ _ => PostReturns (ok_response (story_result text)).

Definition bear_request : widgets :=
  {| api_key := "key"; voice_input_param := None;
     characters := "a sleepy bear, a gentle firefly";
     genre := Fantasy; age_group := Children; tips := EmptyString;
     clicked := ClickGenerate |}.

(** Characters of two lines, the second one worded like a Tips line. *)
Definition two_line_request : widgets :=
  {| api_key := "key"; voice_input_param := None;
     characters := "a sleepy bear" +:+ nl +:+ "Additional Tips: make it snow";
     genre := Fantasy; age_group := Children; tips := EmptyString;
     clicked := ClickGenerate |}.

Definition blank_tips_request : widgets :=
  {| api_key := "key"; voice_input_param := None;
     characters := "a sleepy bear"; genre := Fantasy; age_group := Children;
     tips := " "; clicked := ClickGenerate |}.

Definition generate_click : widgets :=
  {| api_key := "key"; voice_input_param := None;
     characters := "a sleepy bear"; genre := Fantasy; age_group := Children;
     tips := EmptyString; clicked := ClickGenerate |}.

Definition speak_without_key : widgets :=
  {| api_key := EmptyString; voice_input_param := None;
     characters := EmptyString; genre := Fantasy; age_group := Toddlers;
     tips := EmptyString; clicked := ClickSpeak |}.

Definition story_session : gmap string pyval :=
  {["story_text" := PStr "Once upon a time"]}.

Definition old_story_session : gmap string pyval :=
  {["story_text" := PStr "old story"]}.

(** ** Further vocabulary *)

(** [Response.raise_for_status] raises for this status. *)
Definition is_error_status (s : Z) : bool := (400 <=? s) && (s <? 600).

(** The text of the [HTTPError] for a response of error status. *)
Definition http_error_text (r : Response) : string :=
  pretty (status_code r)
    +:+ (if status_code r <? 500 then " Client Error: " else " Server Error: ")
    +:+ reason r +:+ " for url: " +:+ url r.

(** The classes a subscript on a parsed JSON value can raise. *)
Definition is_lookup_error (c : exn_class) : bool :=
  match c with
  | KeyError | IndexError | TypeError => true
  | _ => false
  end.

Definition is_st_error (e : event) : bool :=
  match e with
  | StError _ => true
  | _ => false
  end.

Definition is_audio (e : event) : bool :=
  match e with
  | StAudio _ => true
  | _ => false
  end.

Definition byte_value (b : byte) : Z := Z.of_N (Byte.to_N b).

(** The number a little-endian field holds. *)
Fixpoint le_value (l : list byte) : Z :=
  match l with
  | [] => 0
  | b :: l' => byte_value b + 256 * le_value l'
  end.

(** The [len]-byte field at offset [off] of a file, read as a number. *)
Definition field (off len : nat) (out : list byte) : Z :=
  le_value (take len (drop off out)).

Definition is_digit (c : ascii) : bool := (48 <=? code c) && (code c <=? 57).

Definition all_digits (s : string) : bool := forallb is_digit (list_ascii_of_string s).

(** The number a string of decimal digits writes. *)
Definition decimal_value (s : string) : Z :=
  fold_left (fun acc c => 10 * acc + (code c - 48)) (list_ascii_of_string s) 0.

(** What [st.session_state.voice_text] is once the sidebar ran: the
    transcript of the query parameter when there is one, else the value
    from before, else the empty text. *)
Definition voice_text_after (w : widgets) (ss : gmap string pyval) : pyval :=
  match voice_input_param w with
  | Some v =>
      if String.eqb v "" then default (PStr "") (ss !! "voice_text") else PStr v
  | None => default (PStr "") (ss !! "voice_text")
  end.

(** The request a run sends, if it sends one. *)
Definition request_of_run (w : widgets) (ss : gmap string pyval) : list event :=
  match clicked w with
  | NoClick => []
  | ClickGenerate =>
      if reaches_generate w
      then [HttpPost (endpoint TEXT_GENERATION_MODEL (api_key w))
              (story_payload (story_prompt w))]
      else []
  | ClickSpeak =>
      match ss !! "story_text" with
      | Some story => [HttpPost (endpoint TTS_MODEL (api_key w)) (tts_payload story)]
      | None => []
      end
  end.

(** A synthesis response that lacks the [mimeType] field. *)
Definition no_mime_result : pyval :=
  PDict [("candidates",
          PList [PDict [("content",
                         PDict [("parts",
                                 PList [PDict [("inlineData",
                                                PDict [("data", PStr "A")])]])])]])].

(** A body cut off after the opening bracket of the candidates, 16
    characters in, with the text [json.loads] has for it. *)
Definition truncated_response : Response :=
  {| status_code := 200; reason := "OK"; url := "";
     body := NotJson "Expecting value: line 1 column 17 (char 16)" |}.

(** 4301 digits. *)
Definition long_digits : string := string_of_list_ascii (repeat "7"%char 4301).

(** A body holding an integer of 4301 digits. *)
Definition long_integer_response : Response :=
  {| status_code := 200; reason := "OK"; url := "";
     body := JsonDigits "Exceeds the limit (4300 digits) for integer string conversion: value has 4301 digits; use sys.set_int_max_str_digits() to increase the limit" |}.

(** The classes [response.json()] raises without being one of
    [requests]. *)
Definition is_json_failure (c : exn_class) : bool :=
  match c with
  | ValueError | RecursionError => true
  | _ => false
  end.

Definition speak_click : widgets :=
  {| api_key := "key"; voice_input_param := None;
     characters := EmptyString; genre := Fantasy; age_group := Toddlers;
     tips := EmptyString; clicked := ClickSpeak |}.

Definition generate_without_key : widgets :=
  {| api_key := EmptyString; voice_input_param := None;
     characters := "a sleepy bear"; genre := Fantasy; age_group := Children;
     tips := EmptyString; clicked := ClickGenerate |}.

Definition generate_without_characters : widgets :=
  {| api_key := "key"; voice_input_param := None;
     characters := EmptyString; genre := Fantasy; age_group := Children;
     tips := EmptyString; clicked := ClickGenerate |}.

(** * Proofs *)

(** ** Facts about lines, [str.find] and [str.split] *)

Section StringFacts.

Lemma lines_app_nl (a rest : string) :
  single_line a = true -> lines (a +:+ nl +:+ rest) = a :: lines rest.
Proof.
  unfold single_line.
  induction a as [|c a IH]; simpl; intros H.
  - reflexivity.
  - apply andb_true_iff in H as [Hc Ha].
    apply negb_true_iff in Hc. rewrite Hc.
    rewrite (IH Ha). reflexivity.
Qed.

Lemma lines_prefix (p t : string) :
  single_line p = true -> p <> EmptyString ->
  exists l ls, lines (p +:+ t) = (p +:+ l) :: ls.
Proof.
  unfold single_line.
  induction p as [|c p IH]; simpl; intros H Hne; [congruence|].
  apply andb_true_iff in H as [Hc Hp].
  apply negb_true_iff in Hc. rewrite Hc.
  destruct p as [|c' p'].
  - change (EmptyString +:+ t) with t.
    destruct (lines t) as [|l ls]; [exists EmptyString, []|exists l, ls]; reflexivity.
  - destruct (IH Hp) as (l & ls & E); [discriminate|].
    rewrite E. exists l, ls. reflexivity.
Qed.


Lemma str_skip_length (n : nat) (s : string) :
  String.length (str_skip n s) = (String.length s - n)%nat.
Proof.
  revert s; induction n as [|n IH]; intros [|c s]; simpl; auto.
Qed.

Lemma str_prefix_length (p s : string) :
  String.prefix p s = true -> (String.length p <= String.length s)%nat.
Proof.
  revert s; induction p as [|a p IH]; intros [|b s]; simpl; try lia; try discriminate.
  destruct (ascii_dec a b); [|discriminate]. intros H. apply IH in H. lia.
Qed.

Lemma str_find_unfold (sep s : string) :
  str_find sep s =
    if String.prefix sep s then Some (EmptyString, str_skip (String.length sep) s)
    else
      match s with
      | EmptyString => None
      | String c s' =>
          match str_find sep s' with
          | Some (a, b) => Some (String c a, b)
          | None => None
          end
      end.
Proof. destruct s; reflexivity. Qed.

Lemma str_find_shorter (sep s a b : string) :
  sep <> EmptyString -> str_find sep s = Some (a, b) ->
  (String.length b < String.length s)%nat.
Proof.
  intros Hsep. revert a b.
  induction s as [|c s IH]; intros a b; rewrite str_find_unfold.
  - destruct sep; [congruence|]. simpl. discriminate.
  - destruct (String.prefix sep (String c s)) eqn:Hp.
    + intros E; inversion E; subst. apply str_prefix_length in Hp.
      rewrite str_skip_length. destruct sep; [congruence|]. simpl in *. lia.
    + destruct (str_find sep s) as [[a' b']|]; [|discriminate].
      intros E; inversion E; subst. specialize (IH _ _ eq_refl). simpl. lia.
Qed.

Lemma str_split_fuel_enough (sep : string) (n m : nat) (s : string) :
  sep <> EmptyString ->
  (String.length s < n)%nat -> (String.length s < m)%nat ->
  str_split_fuel n sep s = str_split_fuel m sep s.
Proof.
  intros Hsep. revert m s.
  induction n as [|n IH]; intros m s Hn Hm; [lia|].
  destruct m as [|m]; [lia|]. simpl.
  destruct (str_find sep s) as [[a b]|] eqn:E; [|reflexivity].
  apply str_find_shorter in E; [|assumption].
  f_equal. apply IH; lia.
Qed.

Lemma str_split_cons (sep s a b : string) :
  sep <> EmptyString -> str_find sep s = Some (a, b) ->
  str_split sep s = a :: str_split sep b.
Proof.
  intros Hsep E. unfold str_split.
  change (str_split_fuel (S (String.length s)) sep s)
    with (match str_find sep s with
          | None => [s]
          | Some (a, b) => a :: str_split_fuel (String.length s) sep b
          end).
  rewrite E. f_equal.
  pose proof (str_find_shorter _ _ _ _ Hsep E).
  apply str_split_fuel_enough; [assumption|lia..].
Qed.

Lemma str_split_none (sep s : string) :
  str_find sep s = None -> str_split sep s = [s].
Proof.
  intros E. unfold str_split.
  change (str_split_fuel (S (String.length s)) sep s)
    with (match str_find sep s with
          | None => [s]
          | Some (a, b) => a :: str_split_fuel (String.length s) sep b
          end).
  rewrite E. reflexivity.
Qed.

Lemma occurs_tail (sep : string) (c : ascii) (s : string) :
  occurs sep (String c s) = false -> occurs sep s = false.
Proof.
  unfold occurs. rewrite (str_find_unfold sep (String c s)).
  destruct (String.prefix sep (String c s)); [discriminate|].
  destruct (str_find sep s) as [[a b]|]; [discriminate|reflexivity].
Qed.

Lemma occurs_prefix (sep s : string) :
  occurs sep s = false -> String.prefix sep s = false.
Proof.
  unfold occurs. rewrite str_find_unfold.
  destruct (String.prefix sep s); [discriminate|reflexivity].
Qed.

(** ["rate="] has no border: an occurrence cannot start inside a text
    free of it and run into a following ["rate="]. *)
Lemma str_prefix_cons (a b : ascii) (p s : string) :
  String.prefix (String a p) (String b s)
  = if ascii_dec a b then String.prefix p s else false.
Proof. reflexivity. Qed.

Lemma str_prefix_empty (s : string) : String.prefix EmptyString s = true.
Proof. destruct s; reflexivity. Qed.

Lemma append_cons (c : ascii) (a b : string) :
  String c a +:+ b = String c (a +:+ b).
Proof. reflexivity. Qed.

Lemma append_empty (b : string) : EmptyString +:+ b = b.
Proof. reflexivity. Qed.

Lemma prefix_rate_app (c : ascii) (a b : string) :
  String.prefix "rate=" (String c a) = false ->
  String.prefix "rate=" (String c a +:+ "rate=" +:+ b) = false.
Proof.
  destruct a as [|c2 [|c3 [|c4 [|c5 a]]]];
    rewrite ?append_cons, ?append_empty, ?str_prefix_cons, ?str_prefix_empty;
    repeat (match goal with
            | |- context [ascii_dec ?x ?y] => destruct (ascii_dec x y); subst
            end; rewrite ?str_prefix_cons, ?str_prefix_empty);
    try reflexivity; try discriminate; auto.
Qed.

Lemma str_prefix_app (p b : string) : String.prefix p (p +:+ b) = true.
Proof.
  induction p as [|c p IH]; rewrite ?append_cons, ?append_empty.
  - apply str_prefix_empty.
  - rewrite str_prefix_cons. destruct (ascii_dec c c); [assumption|congruence].
Qed.

Lemma str_skip_app (p b : string) : str_skip (String.length p) (p +:+ b) = b.
Proof.
  induction p as [|c p IH]; rewrite ?append_cons, ?append_empty.
  - destruct b; reflexivity.
  - assumption.
Qed.

Lemma str_find_first (a b : string) :
  occurs "rate=" a = false ->
  str_find "rate=" (a +:+ "rate=" +:+ b) = Some (a, b).
Proof.
  induction a as [|c a IH]; intros H.
  - rewrite append_empty, str_find_unfold, str_prefix_app, str_skip_app. reflexivity.
  - pose proof (occurs_prefix _ _ H) as Hp.
    apply (prefix_rate_app c a b) in Hp.
    rewrite (append_cons c a) in Hp |- *.
    rewrite str_find_unfold, Hp.
    rewrite (IH (occurs_tail _ _ _ H)). reflexivity.
Qed.

End StringFacts.

(** ** The WAV writer on a fresh buffer *)

Section WavFacts.

Lemma pack_L_ok (v : Z) : 0 <= v < 2 ^ 32 -> pack_L v = Ok (le_bytes 4 v).
Proof.
  intros [H0 H1]. unfold pack_L.
  destruct (Z.leb_spec 0 v); [|lia]. destruct (Z.ltb_spec v (2 ^ 32)); [|lia].
  reflexivity.
Qed.

Lemma pack_L_overflow (v : Z) :
  2 ^ 32 <= v ->
  pack_L v = Raise (Exn struct_error (struct_range_text "L" 32 v)).
Proof.
  intros H. unfold pack_L.
  destruct (Z.ltb_spec v (2 ^ 32)); [lia|]. rewrite andb_false_r. reflexivity.
Qed.

Lemma struct_range_text_L (v : Z) :
  0 <= v < 2 ^ 64 ->
  struct_range_text "L" 32 v = "'L' format requires 0 <= number <= 4294967295".
Proof.
  intros [H0 H1]. unfold struct_range_text.
  destruct (Z.leb_spec 0 v); [|lia]. destruct (Z.ltb_spec v (2 ^ 64)); [|lia].
  reflexivity.
Qed.

Lemma length_le_bytes (n : nat) (v : Z) : length (le_bytes n v) = n.
Proof. revert v; induction n; intros; simpl; auto. Qed.

Variable r : Z.
Variable pcm : list byte.
Hypothesis Hr : 0 < r < 2 ^ 31.
Hypothesis Hlen : 36 + Z.of_nat (length pcm) < 2 ^ 32.

Let n : Z := Z.of_nat (length pcm).


Lemma configure_ok (f : BytesIO) (k : Wave.method unit) :
  Wave.bind (Wave.setnchannels 1) (fun _ =>
    Wave.bind (Wave.setsampwidth 2) (fun _ =>
      Wave.bind (Wave.setframerate r) (fun _ => k))) (Wave.open f)
  = k (configured r f).
Proof.
  unfold Wave.bind, Wave.setnchannels, Wave.setsampwidth, Wave.setframerate,
    Wave.get, Wave.modify. cbn.
  destruct (Z.leb_spec r 0); [lia|]. reflexivity.
Qed.

Lemma pack_fmt_ok (w : Wave.Wave_write) :
  Wave.nchannels w = 1 -> Wave.sampwidth w = 2 -> Wave.framerate w = r ->
  0 <= Wave.datalength w -> 36 + Wave.datalength w < 2 ^ 32 ->
  Wave.pack_fmt w =
    Ok (le_bytes 4 (36 + Wave.datalength w) ++ bytes "WAVE" ++ bytes "fmt "
          ++ le_bytes 4 16 ++ le_bytes 2 1 ++ le_bytes 2 1
          ++ le_bytes 4 r ++ le_bytes 4 (r * 2) ++ le_bytes 2 2 ++ le_bytes 2 16
          ++ bytes "data").
Proof.
  intros Hc Hs Hf H0 H1. unfold Wave.pack_fmt. rewrite Hc, Hs, Hf.
  rewrite (pack_L_ok (36 + _)) by lia.
  rewrite (pack_L_ok r) by lia.
  replace (1 * r * 2) with (r * 2) by lia.
  rewrite (pack_L_ok (r * 2)) by lia.
  reflexivity.
Qed.

Let d : Z := n / (1 * 2) * 1 * 2.

Lemma d_bounds : 0 <= d <= n.
Proof.
  subst d n. change (1 * 2) with 2.
  pose proof (Z_div_mod_eq_full (Z.of_nat (length pcm)) 2).
  pose proof (Z.mod_pos_bound (Z.of_nat (length pcm)) 2 ltac:(lia)). lia.
Qed.

Lemma bio_write_end (data : list byte) (f : BytesIO) :
  pos f = length (buf f) ->
  bio_write data f = {| buf := buf f ++ data; pos := (pos f + length data)%nat |}.
Proof.
  intros H. unfold bio_write. destruct data as [|b data].
  - rewrite app_nil_r, Nat.add_0_r. destruct f; reflexivity.
  - rewrite H, firstn_all, Nat.sub_diag. cbn [replicate app].
    rewrite drop_ge by lia. rewrite app_nil_r. reflexivity.
Qed.

Lemma bio_write_over (a old c data : list byte) (p : nat) :
  p = length a -> length old = length data ->
  bio_write data {| buf := a ++ old ++ c; pos := p |}
  = {| buf := a ++ data ++ c; pos := (p + length data)%nat |}.
Proof.
  intros -> Hl. unfold bio_write. destruct data as [|b data].
  - destruct old; [|discriminate]. rewrite Nat.add_0_r. reflexivity.
  - cbn [buf pos]. rewrite take_app_length.
    replace (length a - length (a ++ old ++ c))%nat with 0%nat
      by (rewrite !length_app; lia).
    rewrite drop_app_add, <- Hl, drop_app_length. reflexivity.
Qed.



Lemma length_hdr_fmt (dl : Z) : length (hdr_fmt r dl) = 36%nat.
Proof. reflexivity. Qed.


Ltac wave_step :=
  cbn -[Z.div Z.modulo Z.mul Z.add Z.pow pack_L Wave.pack_fmt le_bytes
        byte_of_Z Z.of_nat bio_write].

Lemma write_header_ok :
  Wave._ensure_header_written n (configured r {| buf := []; pos := 0 |})
  = (after_header r {| buf := bytes "RIFF" ++ hdr_fmt r d ++ le_bytes 4 d; pos := 44 |}
       (n / (1 * 2)) 0 d, Ok tt).
Proof.
  pose proof d_bounds as Hd.
  unfold Wave._ensure_header_written, Wave._write_header, Wave.bind,
    Wave.file_write, Wave.get, Wave.modify, Wave.lift, Wave.ret, Wave.throw, configured.
  wave_step.
  destruct (Z.eqb_spec r 0); [lia|].
  wave_step. fold n. fold d.
  rewrite pack_fmt_ok by (cbn; fold n; fold d; lia).
  rewrite pack_L_ok by lia.
  wave_step. fold n. fold d. fold (hdr_fmt r d).
  rewrite !bio_write_end by reflexivity.
  reflexivity.
Qed.

Lemma after_header_file (f f' : BytesIO) (nf dw dl : Z) :
  Wave.set_file f' (after_header r f nf dw dl) = after_header r f' nf dw dl.
Proof. reflexivity. Qed.

Lemma file_after_header (f : BytesIO) (nf dw dl : Z) :
  Wave.file (after_header r f nf dw dl) = f.
Proof. reflexivity. Qed.

Lemma writeframesraw_ok :
  Wave.writeframesraw pcm (configured r {| buf := []; pos := 0 |})
  = (after_header r
       {| buf := (bytes "RIFF" ++ hdr_fmt r d ++ le_bytes 4 d) ++ pcm;
          pos := (44 + length pcm)%nat |}
       (n / (1 * 2)) n d, Ok tt).
Proof.
  unfold Wave.writeframesraw, Wave.bind. fold n. rewrite write_header_ok.
  unfold Wave.get, Wave.file_write, Wave.modify.
  cbn [Wave.file after_header]. rewrite !after_header_file.
  rewrite bio_write_end by reflexivity.
  reflexivity.
Qed.

Lemma patchheader_ok (nf : Z) :
  Wave._patchheader
    (after_header r
       {| buf := (bytes "RIFF" ++ hdr_fmt r d ++ le_bytes 4 d) ++ pcm;
          pos := (44 + length pcm)%nat |} nf n d)
  = (after_header r
       {| buf := (bytes "RIFF" ++ hdr_fmt r n ++ le_bytes 4 n) ++ pcm;
          pos := (44 + length pcm)%nat |} nf n n, Ok tt).
Proof.
  pose proof d_bounds as Hd.
  unfold Wave._patchheader, Wave.bind, Wave.get.
  cbn [Wave.datawritten Wave.datalength after_header].
  destruct (Z.eqb_spec n d) as [E|Hne]; [rewrite <- E; reflexivity|].
  unfold Wave.file_seek, Wave.file_write, Wave.modify, Wave.lift.
  change (Wave.form_length_pos (after_header r ?f nf n d)) with 4%nat.
  change (Wave.data_length_pos (after_header r ?f nf n d)) with 40%nat.
  rewrite !pack_L_ok by (subst n; lia).
  repeat rewrite ?after_header_file, ?file_after_header.
  unfold bio_seek; cbn [buf pos].
  unfold hdr_fmt.
  replace ((bytes "RIFF" ++ (le_bytes 4 (36 + d) ++ hdr_mid r) ++ le_bytes 4 d) ++ pcm)
    with (bytes "RIFF" ++ le_bytes 4 (36 + d) ++ (hdr_mid r ++ le_bytes 4 d ++ pcm))
    by (rewrite <- !app_assoc; reflexivity).
  rewrite (bio_write_over (bytes "RIFF") (le_bytes 4 (36 + d))) by reflexivity.
  cbn [buf pos].
  replace (bytes "RIFF" ++ le_bytes 4 (36 + n) ++ hdr_mid r ++ le_bytes 4 d ++ pcm)
    with ((bytes "RIFF" ++ le_bytes 4 (36 + n) ++ hdr_mid r) ++ le_bytes 4 d ++ pcm)
    by (rewrite <- !app_assoc; reflexivity).
  rewrite (bio_write_over _ (le_bytes 4 d)) by reflexivity.
  cbn [buf pos].
  replace ((bytes "RIFF" ++ le_bytes 4 (36 + n) ++ hdr_mid r) ++ le_bytes 4 n ++ pcm)
    with ((bytes "RIFF" ++ (le_bytes 4 (36 + n) ++ hdr_mid r) ++ le_bytes 4 n) ++ pcm)
    by (rewrite <- !app_assoc; reflexivity).
  reflexivity.
Qed.

Lemma close_ok (f : BytesIO) (nf dw : Z) :
  Wave.close (after_header r f nf dw dw) = (after_header r f nf dw dw, Ok tt).
Proof.
  unfold Wave.close, Wave._ensure_header_written, Wave.bind, Wave.get, Wave.ret.
  cbn [Wave.headerwritten Wave.datalength Wave.datawritten after_header].
  rewrite Z.eqb_refl. reflexivity.
Qed.

Lemma writeframes_ok :
  Wave.writeframes pcm (configured r {| buf := []; pos := 0 |})
  = (after_header r
       {| buf := (bytes "RIFF" ++ hdr_fmt r n ++ le_bytes 4 n) ++ pcm;
          pos := (44 + length pcm)%nat |}
       (n / (1 * 2)) n n, Ok tt).
Proof.
  unfold Wave.writeframes, Wave.bind. rewrite writeframesraw_ok.
  unfold Wave.get, Wave.ret. cbn [Wave.datalength Wave.datawritten after_header].
  destruct (Z.eqb_spec d n) as [E|Hne]; cbn [negb].
  - rewrite E. reflexivity.
  - apply patchheader_ok.
Qed.

Lemma write_wav_ok :
  write_wav r pcm = Ok (wav_header r n ++ pcm).
Proof.
  unfold write_wav, Wave.with_open. rewrite configure_ok, writeframes_ok, close_ok.
  cbn [py_bind Wave.file after_header bio_seek bio_read buf pos drop].
  unfold wav_header, hdr_fmt, hdr_mid. rewrite <- !app_assoc. reflexivity.
Qed.
End WavFacts.

(** ** The WAV writer when the length does not fit the header *)

Section WavOverflow.

Variable r : Z.
Variable pcm : list byte.
Hypothesis Hr : 0 < r < 2 ^ 31.
Hypothesis Hlen : 2 ^ 32 <= 36 + Z.of_nat (length pcm) / (1 * 2) * 1 * 2 < 2 ^ 64.

Lemma pack_fmt_overflow (w : Wave.Wave_write) :
  2 ^ 32 <= 36 + Wave.datalength w < 2 ^ 64 ->
  Wave.pack_fmt w
  = Raise (Exn struct_error "'L' format requires 0 <= number <= 4294967295").
Proof.
  intros H. unfold Wave.pack_fmt. rewrite pack_L_overflow by lia.
  rewrite struct_range_text_L by lia. reflexivity.
Qed.

Lemma write_wav_too_long :
  write_wav r pcm
  = Raise (Exn struct_error "'L' format requires 0 <= number <= 4294967295").
Proof.
  unfold write_wav, Wave.with_open. rewrite configure_ok by assumption.
  unfold Wave.writeframes, Wave.writeframesraw, Wave.close, Wave._ensure_header_written,
    Wave._write_header, Wave._patchheader, Wave.bind, Wave.file_write, Wave.get,
    Wave.modify, Wave.lift, Wave.ret, Wave.throw, configured.
  cbn -[Z.div Z.modulo Z.mul Z.add Z.pow pack_L Wave.pack_fmt le_bytes
        byte_of_Z Z.of_nat bio_write].
  destruct (Z.eqb_spec r 0); [lia|].
  cbn -[Z.div Z.modulo Z.mul Z.add Z.pow pack_L Wave.pack_fmt le_bytes
        byte_of_Z Z.of_nat bio_write].
  rewrite pack_fmt_overflow by (cbn -[Z.div Z.mul Z.add Z.pow Z.of_nat]; exact Hlen).
  cbn -[Z.div Z.modulo Z.mul Z.add Z.pow pack_L Wave.pack_fmt le_bytes
        byte_of_Z Z.of_nat bio_write].
  rewrite (proj2 (Z.eqb_neq r 0)) by assumption.
  cbn -[Z.div Z.modulo Z.mul Z.add Z.pow pack_L Wave.pack_fmt le_bytes
        byte_of_Z Z.of_nat bio_write].
  destruct (Z.eqb_spec (Z.of_nat (length pcm) / (1 * 2)) 0) as [E|_];
    [rewrite E in Hlen; cbn in Hlen; lia|].
  cbn -[Z.div Z.modulo Z.mul Z.add Z.pow pack_L Wave.pack_fmt le_bytes
        byte_of_Z Z.of_nat bio_write].
  rewrite pack_fmt_overflow by (cbn -[Z.div Z.mul Z.add Z.pow Z.of_nat]; exact Hlen).
  reflexivity.
Qed.

End WavOverflow.

(** ** The assembled prompt, line by line *)

Section PromptFacts.

Lemma append_assoc (a b c : string) : (a +:+ b) +:+ c = a +:+ (b +:+ c).
Proof. induction a as [|x a IH]; [reflexivity|]. rewrite !append_cons, IH. reflexivity. Qed.

Lemma single_line_app (a b : string) :
  single_line (a +:+ b) = single_line a && single_line b.
Proof.
  unfold single_line. induction a as [|x a IH]; [reflexivity|].
  rewrite append_cons. cbn [list_ascii_of_string forallb]. rewrite IH, andb_assoc. reflexivity.
Qed.

Lemma single_line_genre (g : Genre) : single_line (genre_option g) = true.
Proof. destruct g; reflexivity. Qed.

Lemma single_line_age_group (a : AgeGroup) : single_line (age_group_option a) = true.
Proof. destruct a; reflexivity. Qed.

Lemma lines_nl (rest : string) : lines (nl +:+ rest) = EmptyString :: lines rest.
Proof. apply (lines_app_nl EmptyString rest). reflexivity. Qed.

Lemma story_prompt_unfold (w : widgets) :
  story_prompt w
  = intro +:+ nl +:+ nl
      +:+ ("Characters: " +:+ characters w) +:+ nl
      +:+ ("Genre: " +:+ genre_option (genre w)) +:+ nl
      +:+ ("Age Group: " +:+ age_group_option (age_group w)) +:+ nl
      +:+ (if String.eqb (tips w) "" then EmptyString
           else "Additional Tips: " +:+ tips w +:+ nl).
Proof.
  unfold story_prompt. destruct (String.eqb (tips w) ""); cbn [negb];
    rewrite !append_assoc; reflexivity.
Qed.

Lemma story_prompt_lines (w : widgets) :
  single_line (characters w) = true ->
  lines (story_prompt w)
  = [intro; EmptyString;
     "Characters: " +:+ characters w;
     "Genre: " +:+ genre_option (genre w);
     "Age Group: " +:+ age_group_option (age_group w)]
    ++ (if String.eqb (tips w) "" then []
        else lines ("Additional Tips: " +:+ tips w +:+ nl)).
Proof.
  intros Hc. rewrite story_prompt_unfold.
  rewrite (lines_app_nl intro) by reflexivity.
  rewrite lines_nl.
  rewrite (lines_app_nl ("Characters: " +:+ characters w))
    by (rewrite single_line_app, Hc; reflexivity).
  rewrite (lines_app_nl ("Genre: " +:+ genre_option (genre w)))
    by (rewrite single_line_app, single_line_genre; reflexivity).
  rewrite (lines_app_nl ("Age Group: " +:+ age_group_option (age_group w)))
    by (rewrite single_line_app, single_line_age_group; reflexivity).
  destruct (String.eqb (tips w) ""); reflexivity.
Qed.

Lemma fixed_lines_no_tips (w : widgets) :
  existsb is_tips_line
    [intro; EmptyString;
     "Characters: " +:+ characters w;
     "Genre: " +:+ genre_option (genre w);
     "Age Group: " +:+ age_group_option (age_group w)] = false.
Proof. reflexivity. Qed.

Lemma has_tips_line_iff_nonempty (w : widgets) :
  single_line (characters w) = true ->
  has_tips_line (story_prompt w) = negb (String.eqb (tips w) "").
Proof.
  intros Hc. unfold has_tips_line. rewrite (story_prompt_lines w Hc).
  rewrite List.existsb_app, fixed_lines_no_tips.
  destruct (String.eqb (tips w) ""); [reflexivity|].
  destruct (lines_prefix "Additional Tips: " (tips w +:+ nl)) as (l & ls & E);
    [reflexivity|discriminate|].
  rewrite E. cbn [existsb orb negb]. unfold is_tips_line.
  rewrite str_prefix_app. reflexivity.
Qed.

End PromptFacts.

(** ** What [b64decode] can raise *)

Section DecodeFacts.

Lemma a2b_loop_raises (s : string) (st : a2b_state) (e : exn) :
  a2b_loop s st = Raise e -> exn_cls e = binascii_Error.
Proof.
  revert st; induction s as [|c s IH]; intros st; cbn [a2b_loop].
  - destruct (quad_pos st =? 0); [discriminate|].
    destruct (quad_pos st =? 1); intros [= <-]; reflexivity.
  - destruct (Ascii.eqb c "=").
    + destruct (2 <=? quad_pos st); [|apply IH].
      destruct (4 <=? quad_pos st + (pads st + 1)); [discriminate|apply IH].
    + destruct (b64_value c); apply IH.
Qed.

Lemma b64decode_raises (v : pyval) (e : exn) :
  b64decode v = Raise e ->
  is_RequestException (exn_cls e) = false
  /\ is_KeyError_or_IndexError (exn_cls e) = false.
Proof.
  unfold b64decode. destruct v; try (intros [= <-]; split; reflexivity).
  destruct (is_ascii s).
  - intros H. apply a2b_loop_raises in H. rewrite H. split; reflexivity.
  - intros [= <-]; split; reflexivity.
Qed.

End DecodeFacts.

(** ** The POSTs of a run and the stored story *)

Section ScriptFacts.

Variable net : network.
Variable w : widgets.
Variable ss : gmap string pyval.

Lemma sidebar_story_text :
  (sidebar w ss).1 !! "story_text" = ss !! "story_text".
Proof.
  unfold sidebar. cbn [fst].
  set (ss1 := match voice_input_param w with
              | Some v => if String.eqb v "" then ss else <["voice_text" := PStr v]> ss
              | None => ss
              end).
  assert (ss1 !! "story_text" = ss !! "story_text") as H1.
  { subst ss1. destruct (voice_input_param w) as [v|]; [|reflexivity].
    destruct (String.eqb v ""); [reflexivity|].
    apply lookup_insert_ne. discriminate. }
  destruct (ss1 !! "voice_text"); [exact H1|].
  rewrite lookup_insert_ne by discriminate. exact H1.
Qed.

Lemma sidebar_posts : posts (sidebar w ss).2 = [].
Proof. unfold sidebar. cbn [snd]. destruct (String.eqb (api_key w) ""); reflexivity. Qed.

End ScriptFacts.

Lemma posts_app (l k : list event) : posts (l ++ k) = posts l ++ posts k.
Proof. apply filter_app. Qed.

Lemma text_to_speech_posts (net : network) (text : pyval) (key : string) :
  posts (text_to_speech net text key).1
  = [HttpPost (endpoint TTS_MODEL key) (tts_payload text)].
Proof.
  unfold text_to_speech, requests_post.
  destruct (net (endpoint TTS_MODEL key) (tts_payload text)) as [[] detail|resp];
    reflexivity.
Qed.

Lemma generate_story_posts (net : network) (prompt key : string) :
  posts (generate_story net prompt key).1
  = [HttpPost (endpoint TEXT_GENERATION_MODEL key) (story_payload prompt)].
Proof.
  unfold generate_story, requests_post.
  destruct (net (endpoint TEXT_GENERATION_MODEL key) (story_payload prompt))
    as [[] detail|resp]; try reflexivity.
  cbn -[raise_for_status first_part getitem_str].
  destruct (raise_for_status resp) as [[]|e] eqn:E.
  - cbn -[first_part getitem_str].
    destruct (response_json resp) as [result|e]; cbn -[first_part getitem_str].
    + destruct (_ <- first_part result;; _)%py as [t|e];
        cbn; [reflexivity|]. destruct (is_RequestException (exn_cls e)); reflexivity.
    + destruct (is_RequestException (exn_cls e)); reflexivity.
  - cbn. destruct (is_RequestException (exn_cls e)); reflexivity.
Qed.

(** The guard of the generate branch: nothing is sent without a key or
    without characters, and the page says which is missing. *)
Lemma generate_guard (net : network) (w : widgets) (ss : gmap string pyval) :
  clicked w = ClickGenerate ->
  api_key w = EmptyString \/ characters w = EmptyString ->
  posts (page (run_script net w ss)) = []
  /\ (StError "Please enter your Gemini API key in the sidebar." ∈ page (run_script net w ss)
      \/ StError "Please enter at least one character to get started."
           ∈ page (run_script net w ss)).
Proof.
  intros Hc Hor. unfold run_script.
  pose proof (sidebar_posts w ss) as Hp.
  destruct (sidebar w ss) as [ss1 shown1]. cbn [snd] in Hp.
  unfold on_generate, story_area. rewrite Hc.
  destruct (String.eqb_spec (api_key w) "") as [Hk|Hk].
  - cbn. destruct (ss1 !! "story_text"); cbn; rewrite !posts_app, Hp;
      (split; [reflexivity|left; clear; set_solver]).
  - destruct Hor as [?|Hch]; [congruence|]. rewrite Hch. cbn.
    destruct (ss1 !! "story_text"); cbn; rewrite !posts_app, Hp;
      (split; [reflexivity|right; clear; set_solver]).
Qed.

(** With a key and characters, the generate action sends one POST, to the
    text model, carrying the assembled prompt. *)
Lemma generate_posts_prompt (net : network) (w : widgets) (ss : gmap string pyval) :
  reaches_generate w = true ->
  posts (page (run_script net w ss))
  = [HttpPost (endpoint TEXT_GENERATION_MODEL (api_key w)) (story_payload (story_prompt w))].
Proof.
  unfold reaches_generate, run_script. intros Hr.
  pose proof (sidebar_posts w ss) as Hp.
  destruct (sidebar w ss) as [ss1 shown1]. cbn [snd] in Hp.
  unfold on_generate, story_area.
  destruct (clicked w); try discriminate.
  apply andb_true_iff in Hr as [Hk Hc].
  apply negb_true_iff in Hk, Hc. rewrite Hk, Hc.
  pose proof (generate_story_posts net (story_prompt w) (api_key w)) as Hg.
  destruct (generate_story net (story_prompt w) (api_key w)) as [shown [story|e]];
    cbn [fst] in Hg.
  - destruct (truthy story).
    + rewrite lookup_insert_eq. cbn. rewrite !posts_app, Hp, Hg. reflexivity.
    + destruct (ss1 !! "story_text"); cbn; rewrite !posts_app, Hp, Hg; reflexivity.
  - cbn. rewrite !posts_app, Hp, Hg. reflexivity.
Qed.

(** The stored story after a run, for every network, form and session. *)
Lemma story_text_of_run
    (net : network) (w : widgets) (ss : gmap string pyval)
    (shown : list event) (result : py pyval) :
  generate_story net (story_prompt w) (api_key w) = (shown, result) ->
  session (run_script net w ss) !! "story_text"
  = if reaches_generate w then
      match result with
      | Ok story => if truthy story then Some story else ss !! "story_text"
      | Raise _ => ss !! "story_text"
      end
    else ss !! "story_text".
Proof.
  intros Hg. unfold run_script, reaches_generate.
  pose proof (sidebar_story_text w ss) as Hst.
  destruct (sidebar w ss) as [ss1 shown1]. cbn [fst] in Hst.
  unfold on_generate.
  destruct (clicked w).
  - cbn. destruct (story_area net w ss1) as [shown3 [[]|e]]; exact Hst.
  - destruct (String.eqb (api_key w) "").
    { cbn. destruct (story_area net w ss1) as [shown3 [[]|e]]; exact Hst. }
    destruct (String.eqb (characters w) "").
    { cbn. destruct (story_area net w ss1) as [shown3 [[]|e]]; exact Hst. }
    rewrite Hg. cbn [negb andb]. destruct result as [story|e]; [|exact Hst].
    destruct (truthy story).
    + destruct (story_area net w (<["story_text" := story]> ss1)) as [shown3 [[]|e]];
        apply lookup_insert_eq.
    + destruct (story_area net w ss1) as [shown3 [[]|e]]; exact Hst.
  - cbn. destruct (story_area net w ss1) as [shown3 [[]|e]]; exact Hst.
Qed.

(** * The statements of the specification *)

(** C1 (the code departs from it): a transport error of the POST itself is
    caught and shown, but once a response arrives, whatever its status,
    line 67 raises an [AttributeError] that no clause of [text_to_speech]
    catches; [generate_story], which calls [raise_for_status], turns the
    same 500 into a shown error and [None]. *)
Theorem text_to_speech_transport (text : pyval) (key : string) :
  (forall (t : transport_error) (detail : string),
     text_to_speech (fun _ _ => PostFails t detail) text key
     = ([HttpPost (endpoint TTS_MODEL key) (tts_payload text);
         StError ("Error generating audio. Check your API key and try again: " +:+ detail)],
        Ok None))
  /\ (forall resp : Response,
        text_to_speech (fun _ _ => PostReturns resp) text key
        = ([HttpPost (endpoint TTS_MODEL key) (tts_payload text)],
           Raise (Exn AttributeError
                    "'Response' object has no attribute 'raise_s_status'")))
  /\ snd (text_to_speech (fun _ _ => PostReturns server_error) text key)
     = Raise (Exn AttributeError "'Response' object has no attribute 'raise_s_status'")
  /\ snd (generate_story (fun _ _ => PostReturns server_error) "prompt" key) = Ok PNone.
Proof.
  split; [intros [] detail; reflexivity|].
  split; [intros resp; reflexivity|].
  split; reflexivity.
Qed.

(** C2 (the code departs from it): on a 200 response whose body is
    [{candidates: []}] or lacks the key, [generate_story] lets the
    [IndexError] or [KeyError] go to its caller; on a body of the expected
    shape it returns the text of the first part.  The synthesis client has
    the clause for these two classes and returns [None] on the same body. *)
Theorem generate_story_response_shape (prompt key : string) :
  generate_story (fun _ _ => PostReturns (ok_response (PDict [("candidates", PList [])])))
    prompt key
  = ([HttpPost (endpoint TEXT_GENERATION_MODEL key) (story_payload prompt)],
     Raise (Exn IndexError "list index out of range"))
  /\ generate_story (fun _ _ => PostReturns (ok_response (PDict []))) prompt key
     = ([HttpPost (endpoint TEXT_GENERATION_MODEL key) (story_payload prompt)],
        Raise (Exn KeyError "'candidates'"))
  /\ (forall text : pyval,
        generate_story (fun _ _ => PostReturns (ok_response (story_result text))) prompt key
        = ([HttpPost (endpoint TEXT_GENERATION_MODEL key) (story_payload prompt)], Ok text))
  /\ tts_from_response (ok_response (PDict [("candidates", PList [])]))
     = ([StError "Unexpected API response structure: list index out of range"], Ok None).
Proof. repeat split; reflexivity. Qed.

(** C3 (the code departs from it): from "audio/L16;rate=24000" the rate is
    24000 and the audio is returned; without "rate=" the [IndexError] is
    caught and shown; with a non-numeric rate the [ValueError] of [int] is
    caught by neither clause and leaves lines 68-96 uncaught. *)
Theorem sample_rate_parsing :
  sample_rate_of "audio/L16;rate=24000" = Ok 24000
  /\ tts_from_response (ok_response (audio_result (PStr "AAEC/w==") (PStr "audio/L16;rate=24000")))
     = ([], Ok (Some (wav_header 24000 4 ++ [x00; x01; x02; xff])))
  /\ tts_from_response (ok_response (audio_result (PStr "AAEC/w==") (PStr "audio/L16")))
     = ([StError "Unexpected API response structure: list index out of range"], Ok None)
  /\ tts_from_response (ok_response (audio_result (PStr "AAEC/w==") (PStr "audio/L16;rate=abc")))
     = ([], Raise (Exn ValueError "invalid literal for int() with base 10: 'abc'")).
Proof. repeat split; vm_compute; reflexivity. Qed.

(** C4, as amended: for every PCM byte sequence with 36 + length below
    2^32 and every sample rate r with 0 < r < 2^31, lines 81-89 return
    44 + length(pcm) bytes: the 44-byte header for (r, mono, 16 bit,
    length(pcm)), which depends on r and the length only, followed by the
    PCM bytes unchanged. *)
Theorem write_wav_container (r : Z) (pcm : list byte) :
  0 < r < 2 ^ 31 ->
  36 + Z.of_nat (length pcm) < 2 ^ 32 ->
  exists out : list byte,
    write_wav r pcm = Ok out
    /\ length out = (44 + length pcm)%nat
    /\ take 44 out = wav_header r (Z.of_nat (length pcm))
    /\ drop 44 out = pcm.
Proof.
  intros Hr Hlen. exists (wav_header r (Z.of_nat (length pcm)) ++ pcm).
  split; [apply write_wav_ok; assumption|].
  split; [rewrite length_app; reflexivity|].
  split; [apply take_app_length'; reflexivity|apply drop_app_length'; reflexivity].
Qed.

Lemma write_wav_container_witness :
  exists out : list byte,
    write_wav 24000 [x01; x02; x03] = Ok out
    /\ length out = 47%nat
    /\ take 44 out = wav_header 24000 3
    /\ drop 44 out = [x01; x02; x03].
Proof. apply (write_wav_container 24000 [x01; x02; x03]); [lia|cbn; lia]. Defined.

(** C4 as stated fails: 2^31 is a positive sample rate, and its byte rate
    2^32 does not fit the header; and at 24000 Hz a PCM sequence of
    2^32 - 36 bytes makes the RIFF length 2^32.  [struct.pack] raises in
    both cases and no container is returned. *)
Lemma write_wav_field_overflow :
  0 < 2 ^ 31
  /\ write_wav (2 ^ 31) [x01; x02]
     = Raise (Exn struct_error "'L' format requires 0 <= number <= 4294967295")
  /\ write_wav 24000 (replicate (Z.to_nat (2 ^ 32 - 36)) x00)
     = Raise (Exn struct_error "'L' format requires 0 <= number <= 4294967295").
Proof.
  split; [reflexivity|]. split; [vm_compute; reflexivity|].
  apply write_wav_too_long; [lia|].
  rewrite length_replicate, Z2Nat.id by lia.
  change (1 * 2) with 2.
  pose proof (Z_div_mod_eq_full (2 ^ 32 - 36) 2).
  assert ((2 ^ 32 - 36) mod 2 = 0) by reflexivity. lia.
Qed.

(** C5 as stated fails: it speaks of every request with non-empty
    characters, and characters that hold a line feed put more lines into
    the prompt.  With empty tips and the characters below there are four
    non-empty lines after the intro, one of them a Tips line. *)
Lemma characters_with_line_feed_add_lines :
  characters two_line_request <> EmptyString
  /\ tips two_line_request = EmptyString
  /\ List.filter nonempty (tail (lines (story_prompt two_line_request)))
     = ["Characters: a sleepy bear";
        "Additional Tips: make it snow";
        "Genre: Fantasy";
        "Age Group: Children (4-8 years)"]
  /\ has_tips_line (story_prompt two_line_request) = true.
Proof.
  split; [intros H; vm_compute in H; discriminate H|].
  split; [reflexivity|]. split; vm_compute; reflexivity.
Qed.

(** C5, as amended: for every request with non-empty characters that
    hold no line feed, the prompt is the intro line "Create a story for
    the following details:" and an empty line, then "Characters: ...",
    "Genre: ...", "Age Group: ...", each ended by a line feed, and
    "Additional Tips: ..." appended exactly when tips is non-empty;
    these are the lines of the prompt, and with empty tips the non-empty
    lines after the intro are those three and none is a Tips line. *)
Theorem story_prompt_layout (w : widgets) :
  characters w <> EmptyString ->
  single_line (characters w) = true ->
  story_prompt w
  = "Create a story for the following details:" +:+ nl +:+ nl
      +:+ ("Characters: " +:+ characters w) +:+ nl
      +:+ ("Genre: " +:+ genre_option (genre w)) +:+ nl
      +:+ ("Age Group: " +:+ age_group_option (age_group w)) +:+ nl
      +:+ (if String.eqb (tips w) "" then EmptyString
           else "Additional Tips: " +:+ tips w +:+ nl)
  /\ lines (story_prompt w)
     = ["Create a story for the following details:"; EmptyString;
        "Characters: " +:+ characters w;
        "Genre: " +:+ genre_option (genre w);
        "Age Group: " +:+ age_group_option (age_group w)]
       ++ (if String.eqb (tips w) "" then []
           else lines ("Additional Tips: " +:+ tips w +:+ nl))
  /\ (tips w = EmptyString ->
      List.filter nonempty (tail (lines (story_prompt w)))
      = ["Characters: " +:+ characters w;
         "Genre: " +:+ genre_option (genre w);
         "Age Group: " +:+ age_group_option (age_group w)]
      /\ has_tips_line (story_prompt w) = false).
Proof.
  intros _ Hc. split; [apply story_prompt_unfold|].
  split; [apply story_prompt_lines; assumption|].
  intros Ht. split.
  - rewrite (story_prompt_lines w Hc), Ht. reflexivity.
  - rewrite (has_tips_line_iff_nonempty w Hc), Ht. reflexivity.
Qed.

Lemma story_prompt_layout_witness :
  story_prompt bear_request
  = "Create a story for the following details:" +:+ nl +:+ nl
      +:+ "Characters: a sleepy bear, a gentle firefly" +:+ nl
      +:+ "Genre: Fantasy" +:+ nl
      +:+ "Age Group: Children (4-8 years)" +:+ nl
  /\ lines (story_prompt bear_request)
     = ["Create a story for the following details:"; EmptyString;
        "Characters: a sleepy bear, a gentle firefly";
        "Genre: Fantasy";
        "Age Group: Children (4-8 years)"]
  /\ List.filter nonempty (tail (lines (story_prompt bear_request)))
     = ["Characters: a sleepy bear, a gentle firefly";
        "Genre: Fantasy";
        "Age Group: Children (4-8 years)"]
  /\ has_tips_line (story_prompt bear_request) = false.
Proof.
  destruct (story_prompt_layout bear_request) as (H0 & H1 & H2);
    [discriminate|reflexivity|].
  destruct (H2 eq_refl) as [H3 H4].
  split; [exact H0|]. split; [exact H1|]. split; [exact H3|exact H4].
Defined.

(** C6, as amended: for a request with one-line characters the prompt has
    a Tips line if and only if tips is non-empty; white space counts as
    content. *)
Theorem tips_line_iff_tips_nonempty (w : widgets) :
  single_line (characters w) = true ->
  has_tips_line (story_prompt w) = true <-> tips w <> EmptyString.
Proof.
  intros Hc. rewrite (has_tips_line_iff_nonempty w Hc).
  destruct (String.eqb_spec (tips w) ""); cbn [negb]; split; congruence.
Qed.

Lemma tips_line_iff_tips_nonempty_witness :
  has_tips_line (story_prompt blank_tips_request) = true
  <-> tips blank_tips_request <> EmptyString.
Proof. apply (tips_line_iff_tips_nonempty blank_tips_request). reflexivity. Defined.

(** C6 as stated fails: tips made of one space is white space only, and
    the prompt has a Tips line. *)
Lemma whitespace_tips_has_tips_line :
  whitespace_only (tips blank_tips_request) = true
  /\ has_tips_line (story_prompt blank_tips_request) = true
  /\ ~ (has_tips_line (story_prompt blank_tips_request) = true
        <-> tips blank_tips_request <> EmptyString
            /\ whitespace_only (tips blank_tips_request) = false).
Proof.
  split; [reflexivity|]. split; [reflexivity|].
  intros [H _]. destruct (H eq_refl) as [_ Hw]. discriminate Hw.
Qed.

(** C7 (the code departs from it): when [b64decode] raises on the [data]
    field, lines 68-96 catch nothing: the exception of the decoder, a
    [binascii.Error], [ValueError] or [TypeError], reaches the caller and
    nothing is shown. *)
Theorem undecodable_audio_uncaught (data mime_type : pyval) (e : exn) :
  b64decode data = Raise e ->
  tts_from_response (ok_response (audio_result data mime_type)) = ([], Raise e).
Proof.
  intros H. destruct (b64decode_raises _ _ H) as [H1 H2].
  unfold tts_from_response, tts_after_status, audio_of_result.
  cbn -[b64decode]. rewrite H. cbn. rewrite H1, H2. reflexivity.
Qed.

Lemma undecodable_audio_uncaught_witness :
  tts_from_response (ok_response (audio_result (PStr "AAEC/w") (PStr "audio/L16;rate=24000")))
  = ([], Raise (Exn binascii_Error "Incorrect padding")).
Proof. apply undecodable_audio_uncaught. reflexivity. Defined.

(** C8 (the code departs from it): with a story in the session and an
    empty API key, pressing "Tell Me the Story" sends the synthesis POST
    with [key=] empty; the speak branch has no check of the key, which
    the generate branch has ([generate_guard]). *)
Theorem speak_without_key_reaches_client
    (net : network) (w : widgets) (ss : gmap string pyval) (story : pyval) :
  api_key w = EmptyString ->
  clicked w = ClickSpeak ->
  ss !! "story_text" = Some story ->
  posts (page (run_script net w ss))
  = [HttpPost (endpoint TTS_MODEL "") (tts_payload story)].
Proof.
  intros Hk Hc Hs. unfold run_script.
  pose proof (sidebar_story_text w ss) as Hst. pose proof (sidebar_posts w ss) as Hp.
  destruct (sidebar w ss) as [ss1 shown1]. cbn [fst snd] in Hst, Hp.
  unfold on_generate, story_area. rewrite Hc, Hst, Hs, Hk.
  pose proof (text_to_speech_posts net story "") as Ht.
  destruct (text_to_speech net story "") as [shown [audio|e]]; cbn [fst] in Ht.
  - cbn [io_ret io_bind]. destruct audio as [[|b data]|];
      cbn; rewrite !posts_app, Hp, Ht; reflexivity.
  - cbn. rewrite !posts_app, Hp, Ht. reflexivity.
Qed.

Lemma speak_without_key_reaches_client_witness :
  posts (page (run_script (fun _ _ => PostFails ConnectionFailed "unreachable")
                 speak_without_key story_session))
  = [HttpPost (endpoint TTS_MODEL "") (tts_payload (PStr "Once upon a time"))].
Proof.
  apply speak_without_key_reaches_client; [reflexivity|reflexivity|].
  apply lookup_singleton_eq.
Defined.

(** C9, as amended: the stored story changes only in a run whose generate
    action reaches the client and gets back a value that is true in
    Python (a non-empty text); it then is that value, whole.  When the
    call returns [None], an empty text, or raises, and in every other
    run, the stored story is the one from before. *)
Theorem story_text_after_run
    (net : network) (w : widgets) (ss : gmap string pyval)
    (shown : list event) (result : py pyval) :
  generate_story net (story_prompt w) (api_key w) = (shown, result) ->
  session (run_script net w ss) !! "story_text"
  = if reaches_generate w then
      match result with
      | Ok story => if truthy story then Some story else ss !! "story_text"
      | Raise _ => ss !! "story_text"
      end
    else ss !! "story_text".
Proof. apply story_text_of_run. Qed.

Lemma story_text_after_run_witness :
  session (run_script (answers (PStr "new story")) generate_click old_story_session)
    !! "story_text" = Some (PStr "new story").
Proof.
  apply (story_text_after_run (answers (PStr "new story")) generate_click old_story_session
           [HttpPost (endpoint TEXT_GENERATION_MODEL "key")
              (story_payload (story_prompt generate_click))]
           (Ok (PStr "new story"))).
  reflexivity.
Defined.

(** C9 as stated fails: the call succeeds with an empty text, nothing is
    shown as an error, and the old story stays. *)
Lemma empty_story_not_stored :
  generate_story (answers (PStr "")) (story_prompt generate_click) "key"
  = ([HttpPost (endpoint TEXT_GENERATION_MODEL "key")
        (story_payload (story_prompt generate_click))], Ok (PStr ""))
  /\ fault (run_script (answers (PStr "")) generate_click old_story_session) = None
  /\ session (run_script (answers (PStr "")) generate_click old_story_session)
       !! "story_text" = Some (PStr "old story")
  /\ Some (PStr "old story") <> Some (PStr "").
Proof.
  split; [reflexivity|]. split; [reflexivity|]. split; [|discriminate].
  rewrite (story_text_of_run (answers (PStr "")) generate_click old_story_session
             [HttpPost (endpoint TEXT_GENERATION_MODEL "key")
                (story_payload (story_prompt generate_click))]
             (Ok (PStr ""))) by reflexivity.
  apply lookup_singleton_eq.
Qed.

(** C10, as amended: the rate is read from the text between the first
    "rate=" and the next "rate=", or the end of the mimeType when there
    is none, and that whole segment must be an integer for [int]; so
    "audio/L16;rate=24000;codec=pcm" does not give 24000 but raises. *)
Theorem sample_rate_is_first_segment (a seg : string) :
  occurs "rate=" a = false ->
  occurs "rate=" seg = false ->
  sample_rate_of (a +:+ "rate=" +:+ seg) = py_int seg
  /\ forall rest : string,
       sample_rate_of (a +:+ "rate=" +:+ seg +:+ "rate=" +:+ rest) = py_int seg.
Proof.
  intros Ha Hseg. unfold sample_rate_of. split; [|intros rest].
  - rewrite (str_split_cons "rate=" _ a seg) by (discriminate || apply str_find_first, Ha).
    rewrite (str_split_none "rate=" seg)
      by (unfold occurs in Hseg; destruct (str_find "rate=" seg); [discriminate|reflexivity]).
    reflexivity.
  - rewrite (str_split_cons "rate=" _ a (seg +:+ "rate=" +:+ rest))
      by (discriminate || apply str_find_first, Ha).
    rewrite (str_split_cons "rate=" _ seg rest)
      by (discriminate || apply str_find_first, Hseg).
    reflexivity.
Qed.

Lemma sample_rate_is_first_segment_witness :
  sample_rate_of "audio/L16;rate=24000;codec=pcm"
  = Raise (Exn ValueError "invalid literal for int() with base 10: '24000;codec=pcm'")
  /\ sample_rate_of "audio/L16;rate=24000rate=pcm" = Ok 24000.
Proof.
  destruct (sample_rate_is_first_segment "audio/L16;" "24000;codec=pcm") as [H _];
    [reflexivity|reflexivity|].
  destruct (sample_rate_is_first_segment "audio/L16;" "24000") as [_ H'];
    [reflexivity|reflexivity|].
  split; [exact H|exact (H' "pcm")].
Defined.

(** C10 as stated fails: in "audio/L16;rate=24000rate=pcm" the text after
    the first "rate=" is "24000rate=pcm", no integer, and "rate=24000" is
    not the end of the mimeType; the code still reads 24000. *)
Lemma rate_followed_by_rate_accepted :
  str_find "rate=" "audio/L16;rate=24000rate=pcm" = Some ("audio/L16;", "24000rate=pcm")
  /\ sample_rate_of "audio/L16;rate=24000rate=pcm" = Ok 24000
  /\ sample_rate_of "audio/L16;rate=24000rate=pcm"
     <> rate_of_suffix "audio/L16;rate=24000rate=pcm".
Proof. split; [reflexivity|]. split; [reflexivity|]. discriminate. Qed.

(** * Further properties of the code *)

(** ** What the subscripts and the status check raise *)

Section ClientFacts.

Lemma getitem_str_raises (v : pyval) (k : string) (e : exn) :
  getitem_str v k = Raise e -> is_lookup_error (exn_cls e) = true.
Proof.
  destruct v; cbn; try (intros [= <-]; reflexivity).
  destruct (dict_get k d); [discriminate|intros [= <-]; reflexivity].
Qed.

Lemma getitem_0_raises (v : pyval) (e : exn) :
  getitem_0 v = Raise e -> is_lookup_error (exn_cls e) = true.
Proof.
  destruct v as [| | |[|c s]|[|x l]|d]; cbn; try discriminate;
    intros [= <-]; reflexivity.
Qed.

Lemma py_bind_raises {A B} (m : py A) (k : A -> py B) (e : exn) :
  py_bind m k = Raise e ->
  m = Raise e \/ exists a, m = Ok a /\ k a = Raise e.
Proof. destruct m as [a|e']; cbn; [right; exists a; auto|intros [= ->]; left; reflexivity]. Qed.

Lemma first_part_raises (result : pyval) (e : exn) :
  first_part result = Raise e -> is_lookup_error (exn_cls e) = true.
Proof.
  unfold first_part. intros H.
  repeat (apply py_bind_raises in H as [H|(? & _ & H)];
          [first [apply getitem_str_raises in H | apply getitem_0_raises in H]; exact H|]).
  apply getitem_0_raises in H; exact H.
Qed.

Lemma story_text_raises (result : pyval) (e : exn) :
  (part <- first_part result ;; getitem_str part "text")%py = Raise e ->
  is_lookup_error (exn_cls e) = true.
Proof.
  intros H. apply py_bind_raises in H as [H|(? & _ & H)].
  - apply first_part_raises in H; exact H.
  - apply getitem_str_raises in H; exact H.
Qed.

Lemma lookup_error_not_request (c : exn_class) :
  is_lookup_error c = true -> is_RequestException c = false.
Proof. destruct c; cbn; congruence. Qed.

Lemma raise_for_status_error (r : Response) :
  is_error_status (status_code r) = true ->
  raise_for_status r = Raise (Exn HTTPError (http_error_text r)).
Proof.
  unfold is_error_status, raise_for_status, http_error_text. intros H.
  apply andb_true_iff in H as [H1 H2].
  apply Z.leb_le in H1. apply Z.ltb_lt in H2.
  destruct (Z.ltb_spec (status_code r) 500).
  - rewrite (proj2 (Z.leb_le 400 _)) by lia. reflexivity.
  - rewrite andb_false_r. rewrite (proj2 (Z.leb_le 500 _)), (proj2 (Z.ltb_lt _ 600)) by lia.
    reflexivity.
Qed.

Lemma raise_for_status_ok (r : Response) :
  is_error_status (status_code r) = false -> raise_for_status r = Ok tt.
Proof.
  unfold is_error_status, raise_for_status. intros H.
  assert (status_code r < 400 \/ 600 <= status_code r) as Hs.
  { apply andb_false_iff in H as [H|H];
      [apply Z.leb_gt in H|apply Z.ltb_ge in H]; lia. }
  destruct (Z.leb_spec 400 (status_code r)), (Z.ltb_spec (status_code r) 500),
    (Z.leb_spec 500 (status_code r)), (Z.ltb_spec (status_code r) 600);
    cbn; try reflexivity; lia.
Qed.

End ClientFacts.

(** ** Where audio could be shown *)

Section AudioFacts.

Lemma text_to_speech_cases (net : network) (text : pyval) (key : string) :
  (exists (t : transport_error) (detail : string),
      net (endpoint TTS_MODEL key) (tts_payload text) = PostFails t detail
      /\ text_to_speech net text key
         = ([HttpPost (endpoint TTS_MODEL key) (tts_payload text);
             StError ("Error generating audio. Check your API key and try again: "
                      +:+ detail)],
            Ok None))
  \/ (exists resp : Response,
        net (endpoint TTS_MODEL key) (tts_payload text) = PostReturns resp
        /\ text_to_speech net text key
           = ([HttpPost (endpoint TTS_MODEL key) (tts_payload text)],
              Raise (Exn AttributeError
                       "'Response' object has no attribute 'raise_s_status'"))).
Proof.
  unfold text_to_speech, requests_post.
  destruct (net (endpoint TTS_MODEL key) (tts_payload text)) as [t detail|resp].
  - left. exists t, detail. split; [reflexivity|]. destruct t; reflexivity.
  - right. exists resp. split; reflexivity.
Qed.

Lemma generate_story_no_audio (net : network) (prompt key : string) :
  existsb is_audio (generate_story net prompt key).1 = false.
Proof.
  unfold generate_story, requests_post.
  destruct (net (endpoint TEXT_GENERATION_MODEL key) (story_payload prompt))
    as [[] detail|resp]; try reflexivity.
  cbn -[raise_for_status first_part getitem_str].
  destruct (raise_for_status resp) as [[]|e].
  - cbn -[first_part getitem_str].
    destruct (response_json resp) as [result|e]; cbn -[first_part getitem_str].
    + destruct (_ <- first_part result;; _)%py as [t|e];
        cbn; [reflexivity|]. destruct (is_RequestException (exn_cls e)); reflexivity.
    + destruct (is_RequestException (exn_cls e)); reflexivity.
  - cbn. destruct (is_RequestException (exn_cls e)); reflexivity.
Qed.

Lemma sidebar_no_audio (w : widgets) (ss : gmap string pyval) :
  existsb is_audio (sidebar w ss).2 = false.
Proof. unfold sidebar. cbn [snd]. destruct (String.eqb (api_key w) ""); reflexivity. Qed.

Lemma on_generate_no_audio (net : network) (w : widgets) (ss : gmap string pyval) :
  existsb is_audio (on_generate net w ss).2.1 = false.
Proof.
  unfold on_generate. destruct (clicked w); try reflexivity.
  destruct (String.eqb (api_key w) ""); [reflexivity|].
  destruct (String.eqb (characters w) ""); [reflexivity|].
  pose proof (generate_story_no_audio net (story_prompt w) (api_key w)) as H.
  destruct (generate_story net (story_prompt w) (api_key w)) as [shown [story|e]];
    cbn [fst] in H; [destruct (truthy story)|]; exact H.
Qed.

Lemma story_area_no_audio (net : network) (w : widgets) (ss : gmap string pyval) :
  existsb is_audio (story_area net w ss).1 = false.
Proof.
  unfold story_area. destruct (ss !! "story_text") as [story|]; [|reflexivity].
  destruct (clicked w); try reflexivity.
  destruct (text_to_speech_cases net story (api_key w))
    as [(t & detail & _ & ->)|(resp & _ & ->)]; reflexivity.
Qed.

End AudioFacts.

(** ** Lines 68-96 by the exception of their body *)

Section SynthesisFacts.

Lemma write_wav_bad_rate (r : Z) (pcm : list byte) :
  r <= 0 ->
  write_wav r pcm = Raise (Exn wave_Error "sampling rate not specified").
Proof.
  intros Hr. unfold write_wav, Wave.with_open, Wave.bind, Wave.setnchannels,
    Wave.setsampwidth, Wave.setframerate, Wave.get, Wave.modify, Wave.throw.
  cbn -[Wave.close Wave.writeframes].
  rewrite (proj2 (Z.leb_le r 0)) by assumption.
  reflexivity.
Qed.

Lemma inline_field_raises (result : pyval) (field : string) (e : exn) :
  inline_field result field = Raise e -> is_lookup_error (exn_cls e) = true.
Proof.
  unfold inline_field. intros H.
  apply py_bind_raises in H as [H|(? & _ & H)]; [apply first_part_raises in H; exact H|].
  apply py_bind_raises in H as [H|(? & _ & H)]; apply getitem_str_raises in H; exact H.
Qed.

Lemma tts_from_response_raise (result : pyval) (e : exn) :
  audio_of_result result = Raise e ->
  tts_from_response (ok_response result)
  = if is_KeyError_or_IndexError (exn_cls e)
    then ([StError ("Unexpected API response structure: " +:+ exn_str e)], Ok None)
    else if is_RequestException (exn_cls e)
    then ([StError ("Error generating audio. Check your API key and try again: "
                    +:+ exn_str e)], Ok None)
    else ([], Raise e).
Proof.
  intros H. unfold tts_from_response, tts_after_status.
  cbn -[audio_of_result]. rewrite H. cbn.
  destruct (exn_cls e); reflexivity.
Qed.

End SynthesisFacts.

(** ** [generate_story] *)

(** X1: on a response of status 400..599, whatever its body,
    [generate_story] sends its one POST, shows the text of the
    [HTTPError] after its fixed message and returns [None]. *)
Theorem generate_story_http_error
    (net : network) (prompt key : string) (resp : Response) :
  net (endpoint TEXT_GENERATION_MODEL key) (story_payload prompt) = PostReturns resp ->
  is_error_status (status_code resp) = true ->
  generate_story net prompt key
  = ([HttpPost (endpoint TEXT_GENERATION_MODEL key) (story_payload prompt);
      StError ("Error generating story. Check your API key and try again: "
               +:+ http_error_text resp)],
     Ok PNone).
Proof.
  intros Hn Hs. unfold generate_story, requests_post. rewrite Hn.
  cbn -[raise_for_status]. rewrite (raise_for_status_error resp Hs). reflexivity.
Qed.

Lemma generate_story_http_error_witness :
  generate_story (fun _ _ => PostReturns server_error) "prompt" "key"
  = ([HttpPost (endpoint TEXT_GENERATION_MODEL "key") (story_payload "prompt");
      StError "Error generating story. Check your API key and try again: 500 Server Error: Internal Server Error for url: "],
     Ok PNone).
Proof. apply (generate_story_http_error _ "prompt" "key" server_error); reflexivity. Defined.

(** X2: on a response whose status is no error status, what
    [response.json()] makes of the body decides [generate_story].  A
    parsed body gives the result of the subscripts of line 41, raising
    what they raise.  A body that is not JSON raises a [JSONDecodeError],
    a [RequestException]: it is caught, its own text is shown after the
    fixed message, and [None] is returned.  The [ValueError] of an
    integer with too many digits and the [RecursionError] of too deep a
    nesting are not caught: they leave [generate_story], nothing shown. *)
Theorem generate_story_by_body
    (net : network) (prompt key : string) (resp : Response) :
  net (endpoint TEXT_GENERATION_MODEL key) (story_payload prompt) = PostReturns resp ->
  is_error_status (status_code resp) = false ->
  generate_story net prompt key
  = match body resp with
    | Json result =>
        ([HttpPost (endpoint TEXT_GENERATION_MODEL key) (story_payload prompt)],
         (part <- first_part result ;; getitem_str part "text")%py)
    | NotJson detail =>
        ([HttpPost (endpoint TEXT_GENERATION_MODEL key) (story_payload prompt);
          StError ("Error generating story. Check your API key and try again: "
                   +:+ detail)],
         Ok PNone)
    | JsonDigits detail =>
        ([HttpPost (endpoint TEXT_GENERATION_MODEL key) (story_payload prompt)],
         Raise (Exn ValueError detail))
    | JsonDepth detail =>
        ([HttpPost (endpoint TEXT_GENERATION_MODEL key) (story_payload prompt)],
         Raise (Exn RecursionError detail))
    end.
Proof.
  intros Hn Hs. unfold generate_story, requests_post. rewrite Hn.
  cbn -[raise_for_status]. rewrite (raise_for_status_ok resp Hs).
  unfold response_json. destruct (body resp) as [result|detail|detail|detail];
    try reflexivity.
  cbn -[first_part getitem_str].
  destruct (_ <- first_part result;; _)%py as [t|e] eqn:Ht; cbn; [reflexivity|].
  rewrite (lookup_error_not_request _ (story_text_raises _ _ Ht)). reflexivity.
Qed.

Lemma generate_story_by_body_witness :
  generate_story (fun _ _ => PostReturns truncated_response) "prompt" "key"
  = ([HttpPost (endpoint TEXT_GENERATION_MODEL "key") (story_payload "prompt");
      StError "Error generating story. Check your API key and try again: Expecting value: line 1 column 17 (char 16)"],
     Ok PNone)
  /\ generate_story (fun _ _ => PostReturns long_integer_response) "prompt" "key"
     = ([HttpPost (endpoint TEXT_GENERATION_MODEL "key") (story_payload "prompt")],
        Raise (Exn ValueError "Exceeds the limit (4300 digits) for integer string conversion: value has 4301 digits; use sys.set_int_max_str_digits() to increase the limit")).
Proof.
  split.
  - exact (generate_story_by_body _ "prompt" "key" truncated_response eq_refl eq_refl).
  - exact (generate_story_by_body _ "prompt" "key" long_integer_response eq_refl eq_refl).
Defined.

(** X3: whatever the network does, [generate_story] sends exactly one
    POST; when it shows an error it returns [None]; and when it raises,
    nothing was shown and the exception is no [RequestException]: it is
    a [KeyError], [IndexError] or [TypeError] of the subscripts on line
    41, or the [ValueError] or [RecursionError] that [response.json()]
    on line 39 lets through. *)
Theorem generate_story_outcome (net : network) (prompt key : string) :
  posts (generate_story net prompt key).1
  = [HttpPost (endpoint TEXT_GENERATION_MODEL key) (story_payload prompt)]
  /\ match (generate_story net prompt key).2 with
     | Ok story =>
         existsb is_st_error (generate_story net prompt key).1 = true -> story = PNone
     | Raise e =>
         is_lookup_error (exn_cls e) || is_json_failure (exn_cls e) = true
         /\ is_RequestException (exn_cls e) = false
         /\ existsb is_st_error (generate_story net prompt key).1 = false
     end.
Proof.
  split; [apply generate_story_posts|].
  unfold generate_story, requests_post.
  destruct (net (endpoint TEXT_GENERATION_MODEL key) (story_payload prompt))
    as [[] detail|resp]; try (cbn; reflexivity).
  cbn -[raise_for_status first_part getitem_str].
  destruct (is_error_status (status_code resp)) eqn:Hs.
  - rewrite (raise_for_status_error resp Hs). cbn. reflexivity.
  - rewrite (raise_for_status_ok resp Hs). cbn -[first_part getitem_str].
    unfold response_json.
    destruct (body resp) as [result|detail|detail|detail];
      cbn -[first_part getitem_str]; try (repeat split; reflexivity).
    destruct (_ <- first_part result;; _)%py as [t|e] eqn:Ht; cbn.
    + discriminate.
    + pose proof (story_text_raises _ _ Ht) as Hl.
      rewrite (lookup_error_not_request _ Hl). cbn.
      rewrite Hl. repeat split; try reflexivity.
      apply lookup_error_not_request; exact Hl.
Qed.

(** ** [text_to_speech] and the speak action *)

(** X4: whatever the network does, [text_to_speech] sends exactly one
    POST and never returns audio: it returns [None] or raises the
    [AttributeError] of line 67. *)
Theorem text_to_speech_never_returns_audio (net : network) (text : pyval) (key : string) :
  posts (text_to_speech net text key).1
  = [HttpPost (endpoint TTS_MODEL key) (tts_payload text)]
  /\ ((text_to_speech net text key).2 = Ok None
      \/ (text_to_speech net text key).2
         = Raise (Exn AttributeError "'Response' object has no attribute 'raise_s_status'")).
Proof.
  split; [apply text_to_speech_posts|].
  destruct (text_to_speech_cases net text key)
    as [(t & detail & _ & ->)|(resp & _ & ->)]; [left|right]; reflexivity.
Qed.

(** X5: no run of the script reaches [st.audio]. *)
Theorem run_never_plays_audio (net : network) (w : widgets) (ss : gmap string pyval) :
  existsb is_audio (page (run_script net w ss)) = false.
Proof.
  unfold run_script.
  pose proof (sidebar_no_audio w ss) as H1.
  destruct (sidebar w ss) as [ss1 shown1]. cbn [snd] in H1.
  pose proof (on_generate_no_audio net w ss1) as H2.
  destruct (on_generate net w ss1) as [ss2 [shown2 [[]|e]]]; cbn [fst snd] in H2.
  - pose proof (story_area_no_audio net w ss2) as H3.
    destruct (story_area net w ss2) as [shown3 [[]|e]]; cbn [fst] in H3;
      cbn [page]; rewrite !List.existsb_app, H1, H2, H3; reflexivity.
  - cbn [page]. rewrite List.existsb_app, H1, H2. reflexivity.
Qed.

(** X6: when the synthesis endpoint answers, with any response, the run
    of the speak action ends by the [AttributeError] and no error message
    is on the page. *)
Theorem speak_with_response_faults
    (net : network) (w : widgets) (ss : gmap string pyval) (story : pyval)
    (resp : Response) :
  clicked w = ClickSpeak ->
  ss !! "story_text" = Some story ->
  net (endpoint TTS_MODEL (api_key w)) (tts_payload story) = PostReturns resp ->
  fault (run_script net w ss)
  = Some (Exn AttributeError "'Response' object has no attribute 'raise_s_status'")
  /\ existsb is_st_error (page (run_script net w ss)) = false.
Proof.
  intros Hc Hs Hn. unfold run_script.
  pose proof (sidebar_story_text w ss) as Hst.
  assert (existsb is_st_error (sidebar w ss).2 = false) as Hw.
  { unfold sidebar. cbn [snd]. destruct (String.eqb (api_key w) ""); reflexivity. }
  destruct (sidebar w ss) as [ss1 shown1]. cbn [fst snd] in Hst, Hw.
  unfold on_generate, story_area. rewrite Hc, Hst, Hs.
  unfold text_to_speech, requests_post. rewrite Hn. cbn.
  rewrite List.existsb_app, Hw. split; reflexivity.
Qed.

Lemma speak_with_response_faults_witness :
  fault (run_script (fun _ _ => PostReturns server_error) speak_click story_session)
  = Some (Exn AttributeError "'Response' object has no attribute 'raise_s_status'")
  /\ existsb is_st_error
       (page (run_script (fun _ _ => PostReturns server_error) speak_click story_session))
     = false.
Proof.
  apply (speak_with_response_faults (fun _ _ => PostReturns server_error) speak_click
           story_session (PStr "Once upon a time") server_error);
    [reflexivity| |reflexivity].
  apply lookup_singleton_eq.
Defined.

(** ** The WAV writer on every rate and length *)

Section WavTotal.

Variable r : Z.
Variable pcm : list byte.
Hypothesis Hr : 0 < r.
Hypothesis Hbig :
  2 ^ 31 <= r \/ 2 ^ 32 <= 36 + Z.of_nat (length pcm) / (1 * 2) * 1 * 2.

Lemma pack_fmt_fails (w : Wave.Wave_write) :
  Wave.nchannels w = 1 -> Wave.sampwidth w = 2 -> Wave.framerate w = r ->
  0 <= Wave.datalength w ->
  2 ^ 31 <= r \/ 2 ^ 32 <= 36 + Wave.datalength w ->
  Wave.pack_fmt w
  = Raise (Exn struct_error
             (struct_range_text "L" 32 (overflowing_field r (Wave.datalength w)))).
Proof.
  intros Hc Hs Hf H0 H. unfold Wave.pack_fmt, overflowing_field. rewrite Hc, Hs, Hf.
  destruct (Z.leb_spec (2 ^ 32) (36 + Wave.datalength w)) as [Hd|Hd].
  - rewrite pack_L_overflow by lia. reflexivity.
  - rewrite (pack_L_ok (36 + _)) by lia. cbn [py_bind].
    rewrite (pack_L_ok 16) by lia. cbn -[pack_L Z.mul Z.pow struct_range_text].
    destruct H as [H|H]; [|lia].
    destruct (Z.leb_spec (2 ^ 32) r) as [Hr32|Hr32].
    + rewrite (pack_L_overflow r) by lia. reflexivity.
    + rewrite (pack_L_ok r) by lia. cbn [py_bind].
      rewrite (pack_L_overflow (1 * r * 2)) by lia. reflexivity.
Qed.

Lemma configure_positive (f : BytesIO) (k : Wave.method unit) :
  Wave.bind (Wave.setnchannels 1) (fun _ =>
    Wave.bind (Wave.setsampwidth 2) (fun _ =>
      Wave.bind (Wave.setframerate r) (fun _ => k))) (Wave.open f)
  = k (configured r f).
Proof.
  unfold Wave.bind, Wave.setnchannels, Wave.setsampwidth, Wave.setframerate,
    Wave.get, Wave.modify. cbn.
  destruct (Z.leb_spec r 0); [lia|]. reflexivity.
Qed.

Lemma half_nonneg : 0 <= Z.of_nat (length pcm) / (1 * 2) * 1 * 2.
Proof.
  change (1 * 2) with 2.
  pose proof (Z_div_mod_eq_full (Z.of_nat (length pcm)) 2).
  pose proof (Z.mod_pos_bound (Z.of_nat (length pcm)) 2 ltac:(lia)). lia.
Qed.

Lemma write_wav_overflow :
  write_wav r pcm
  = Raise (Exn struct_error
             (struct_range_text "L" 32
                (overflowing_field r (Z.of_nat (length pcm) / (1 * 2) * 1 * 2)))).
Proof.
  pose proof half_nonneg as Hh.
  unfold write_wav, Wave.with_open. rewrite configure_positive.
  unfold Wave.writeframes, Wave.writeframesraw, Wave.close, Wave._ensure_header_written,
    Wave._write_header, Wave._patchheader, Wave.bind, Wave.file_write, Wave.get,
    Wave.modify, Wave.lift, Wave.ret, Wave.throw, configured.
  cbn -[Z.div Z.modulo Z.mul Z.add Z.pow pack_L Wave.pack_fmt le_bytes
        byte_of_Z Z.of_nat bio_write].
  destruct (Z.eqb_spec r 0); [lia|].
  cbn -[Z.div Z.modulo Z.mul Z.add Z.pow pack_L Wave.pack_fmt le_bytes
        byte_of_Z Z.of_nat bio_write].
  rewrite pack_fmt_fails
    by (cbn -[Z.div Z.mul Z.add Z.pow Z.of_nat]; first [reflexivity|assumption]).
  cbn -[Z.div Z.modulo Z.mul Z.add Z.pow pack_L Wave.pack_fmt le_bytes
        byte_of_Z Z.of_nat bio_write].
  rewrite (proj2 (Z.eqb_neq r 0)) by assumption.
  cbn -[Z.div Z.modulo Z.mul Z.add Z.pow pack_L Wave.pack_fmt le_bytes
        byte_of_Z Z.of_nat bio_write].
  destruct (Z.eqb_spec (Z.of_nat (length pcm) / (1 * 2)) 0) as [E|_];
    cbn -[Z.div Z.modulo Z.mul Z.add Z.pow pack_L Wave.pack_fmt le_bytes
          byte_of_Z Z.of_nat bio_write].
  - rewrite pack_fmt_fails; [rewrite E; reflexivity|reflexivity..| |];
      cbn -[Z.div Z.mul Z.add Z.pow Z.of_nat].
    + rewrite Z.div_0_l by lia. lia.
    + destruct Hbig as [H|H]; [left; exact H|].
      rewrite E in H. cbn in H. lia.
  - rewrite pack_fmt_fails
      by (cbn -[Z.div Z.mul Z.add Z.pow Z.of_nat]; first [reflexivity|assumption]).
    reflexivity.
Qed.

End WavTotal.

(** The three outcomes of lines 81-89. *)
Lemma write_wav_cases (r : Z) (pcm : list byte) :
  write_wav r pcm
  = if r <=? 0 then Raise (Exn wave_Error "sampling rate not specified")
    else if (r <? 2 ^ 31) && (36 + Z.of_nat (length pcm) <? 2 ^ 32)
    then Ok (wav_header r (Z.of_nat (length pcm)) ++ pcm)
    else Raise (Exn struct_error
                  (struct_range_text "L" 32
                     (overflowing_field r (Z.of_nat (length pcm) / (1 * 2) * 1 * 2)))).
Proof.
  destruct (Z.leb_spec r 0) as [Hr|Hr]; [apply write_wav_bad_rate; assumption|].
  destruct (Z.ltb_spec r (2 ^ 31)) as [Hr'|Hr'];
    destruct (Z.ltb_spec (36 + Z.of_nat (length pcm)) (2 ^ 32)) as [Hl|Hl]; cbn [andb].
  - apply write_wav_ok; [split|]; assumption.
  - apply write_wav_overflow; [assumption|]. right.
    change (1 * 2) with 2.
    pose proof (Z_div_mod_eq_full (Z.of_nat (length pcm)) 2).
    pose proof (Z.mod_pos_bound (Z.of_nat (length pcm)) 2 ltac:(lia)).
    change (2 ^ 32) with 4294967296 in *. lia.
  - apply write_wav_overflow; [assumption|left; assumption].
  - apply write_wav_overflow; [assumption|left; assumption].
Qed.

Section OutcomeFacts.

Lemma py_bind_ok {A B} (m : py A) (k : A -> py B) (b : B) :
  py_bind m k = Ok b -> exists a, m = Ok a /\ k a = Ok b.
Proof. destruct m as [a|e]; cbn; [exists a; auto|discriminate]. Qed.

Lemma length_wav_header (r n : Z) : length (wav_header r n) = 44%nat.
Proof. reflexivity. Qed.

Lemma write_wav_returns (r : Z) (pcm out : list byte) :
  write_wav r pcm = Ok out -> out = wav_header r (Z.of_nat (length pcm)) ++ pcm.
Proof.
  rewrite write_wav_cases. destruct (r <=? 0); [discriminate|].
  destruct ((r <? 2 ^ 31) && (36 + Z.of_nat (length pcm) <? 2 ^ 32));
    [intros [= <-]; reflexivity|discriminate].
Qed.

Lemma write_wav_raises (r : Z) (pcm : list byte) (e : exn) :
  write_wav r pcm = Raise e -> exn_cls e = wave_Error \/ exn_cls e = struct_error.
Proof.
  rewrite write_wav_cases. destruct (r <=? 0); [intros [= <-]; left; reflexivity|].
  destruct ((r <? 2 ^ 31) && (36 + Z.of_nat (length pcm) <? 2 ^ 32));
    [discriminate|intros [= <-]; right; reflexivity].
Qed.

Lemma py_int_raises (s : string) (e : exn) :
  py_int s = Raise e -> exn_cls e = ValueError.
Proof.
  unfold py_int. destruct (digits_over_limit s); [intros [= <-]; reflexivity|].
  destruct (int_literal s); [discriminate|intros [= <-]; reflexivity].
Qed.

Lemma audio_of_result_raises (result : pyval) (e : exn) :
  audio_of_result result = Raise e -> is_RequestException (exn_cls e) = false.
Proof.
  unfold audio_of_result. intros H.
  apply py_bind_raises in H as [H|(d & _ & H)];
    [apply inline_field_raises, lookup_error_not_request in H; exact H|].
  apply py_bind_raises in H as [H|(m & _ & H)];
    [apply inline_field_raises, lookup_error_not_request in H; exact H|].
  apply py_bind_raises in H as [H|(pcm & _ & H)];
    [apply b64decode_raises in H as [H _]; exact H|].
  apply py_bind_raises in H as [H|(pieces & _ & H)].
  { destruct m; cbn in H; inversion H; reflexivity. }
  apply py_bind_raises in H as [H|(s & _ & H)].
  { destruct pieces as [|? [|? ?]]; cbn in H; inversion H; reflexivity. }
  apply py_bind_raises in H as [H|(r & _ & H)].
  { apply py_int_raises in H. rewrite H. reflexivity. }
  apply write_wav_raises in H as [-> | ->]; reflexivity.
Qed.

Lemma audio_of_result_returns (result : pyval) (audio : list byte) :
  audio_of_result result = Ok audio -> (44 <= length audio)%nat.
Proof.
  unfold audio_of_result. intros H.
  repeat (apply py_bind_ok in H as (? & _ & H)).
  apply write_wav_returns in H. subst audio.
  rewrite length_app, length_wav_header. lia.
Qed.

End OutcomeFacts.

(** ** Reading the header back *)

Section HeaderFacts.

Lemma byte_value_of_Z (z : Z) : 0 <= z < 256 -> byte_value (byte_of_Z z) = z.
Proof.
  intros Hz. unfold byte_value, byte_of_Z.
  destruct (Byte.of_N (Z.to_N z)) as [b|] eqn:E.
  - apply Byte.to_of_N in E. rewrite E. lia.
  - apply Byte.of_N_None_iff in E. lia.
Qed.

Lemma le_value_le_bytes (n : nat) (v : Z) :
  0 <= v < 256 ^ Z.of_nat n -> le_value (le_bytes n v) = v.
Proof.
  revert v; induction n as [|n IH]; intros v Hv.
  - cbn in *. lia.
  - cbn [le_bytes le_value].
    rewrite byte_value_of_Z by (apply Z.mod_pos_bound; lia).
    rewrite IH.
    + pose proof (Z_div_mod_eq_full v 256). lia.
    + rewrite Nat2Z.inj_succ, Z.pow_succ_r in Hv by lia.
      split; [apply Z.div_pos; lia|apply Z.div_lt_upper_bound; lia].
Qed.

End HeaderFacts.

(** ** [int] on decimal digits *)

Section DigitFacts.

Lemma digit_cases (c : ascii) :
  is_digit c = true ->
  digit_val c = Some (code c - 48) /\ is_int_space c = false
  /\ Ascii.eqb c "_" = false /\ c <> "+"%char /\ c <> "-"%char /\ c <> "r"%char.
Proof.
  destruct c as [[] [] [] [] [] [] [] []]; cbn; try discriminate;
    intros _; repeat split; discriminate.
Qed.

Lemma parse_digits_all (s : string) (st : digit_state) (acc : Z) :
  all_digits s = true ->
  s <> EmptyString \/ st = AfterDigit ->
  parse_digits s st acc
  = Some (fold_left (fun acc c => 10 * acc + (code c - 48)) (list_ascii_of_string s) acc).
Proof.
  unfold all_digits. revert st acc.
  induction s as [|c s IH]; intros st acc Hd Hne.
  - destruct Hne as [?| ->]; [congruence|reflexivity].
  - cbn [list_ascii_of_string forallb] in Hd. apply andb_true_iff in Hd as [Hc Hs].
    destruct (digit_cases c Hc) as (Hv & _).
    cbn [parse_digits list_ascii_of_string fold_left]. rewrite Hv.
    apply IH; [exact Hs|right; reflexivity].
Qed.

Lemma lstrip_digits (s : string) : all_digits s = true -> lstrip s = s.
Proof.
  unfold all_digits. destruct s as [|c s]; [reflexivity|].
  cbn [list_ascii_of_string forallb]. intros Hd. apply andb_true_iff in Hd as [Hc _].
  destruct (digit_cases c Hc) as (_ & Hsp & _). cbn [lstrip]. rewrite Hsp. reflexivity.
Qed.

Lemma all_digits_rev (s : string) : all_digits s = true -> all_digits (str_rev s) = true.
Proof.
  unfold all_digits, str_rev. rewrite list_ascii_of_string_of_list_ascii.
  rewrite !forallb_forall. intros H c Hc. apply H. apply in_rev. exact Hc.
Qed.

Lemma str_rev_involutive (s : string) : str_rev (str_rev s) = s.
Proof.
  unfold str_rev. rewrite list_ascii_of_string_of_list_ascii, rev_involutive.
  apply string_of_list_ascii_of_string.
Qed.

Lemma strip_digits (s : string) : all_digits s = true -> strip s = s.
Proof.
  intros H. unfold strip. rewrite (lstrip_digits s H).
  rewrite (lstrip_digits _ (all_digits_rev s H)). apply str_rev_involutive.
Qed.

Lemma count_digits_all (s : string) (acc : Z) :
  all_digits s = true ->
  count_digits s false acc = Some (acc + Z.of_nat (String.length s)).
Proof.
  unfold all_digits. revert acc. induction s as [|c s IH]; intros acc Hd.
  - cbn. f_equal. lia.
  - cbn [list_ascii_of_string forallb] in Hd. apply andb_true_iff in Hd as [Hc Hs].
    destruct (digit_cases c Hc) as (Hv & _).
    cbn [count_digits]. rewrite Hv, (IH _ Hs). cbn [String.length]. f_equal. lia.
Qed.

Lemma digits_over_limit_digits (s : string) :
  all_digits s = true ->
  digits_over_limit s
  = if MAX_STR_DIGITS <? Z.of_nat (String.length s)
    then Some (Z.of_nat (String.length s)) else None.
Proof.
  intros Hd. unfold digits_over_limit. rewrite (strip_digits s Hd).
  pose proof (count_digits_all s 0 Hd) as Hn. rewrite Z.add_0_l in Hn.
  destruct s as [|c s]; [reflexivity|].
  unfold all_digits in Hd. cbn [list_ascii_of_string forallb] in Hd.
  apply andb_true_iff in Hd as [Hc _].
  destruct (digit_cases c Hc) as (_ & _ & Hus & Hplus & Hminus & _).
  destruct c as [[] [] [] [] [] [] [] []]; try congruence; try discriminate;
    cbn [unsigned_part]; rewrite Hn; reflexivity.
Qed.

Lemma py_int_digits (s : string) :
  all_digits s = true -> s <> EmptyString ->
  py_int s
  = if MAX_STR_DIGITS <? Z.of_nat (String.length s)
    then Raise (Exn ValueError (digit_limit_text (Z.of_nat (String.length s))))
    else Ok (decimal_value s).
Proof.
  intros Hd Hne. unfold py_int. rewrite (digits_over_limit_digits s Hd).
  destruct (MAX_STR_DIGITS <? Z.of_nat (String.length s)); [reflexivity|].
  unfold int_literal. rewrite (strip_digits s Hd).
  assert (parse_digits s AtStart 0 = Some (decimal_value s)) as Hp
    by (apply parse_digits_all; [exact Hd|left; exact Hne]).
  destruct s as [|c s]; [congruence|].
  unfold all_digits in Hd. cbn [list_ascii_of_string forallb] in Hd.
  apply andb_true_iff in Hd as [Hc _].
  destruct (digit_cases c Hc) as (_ & _ & _ & Hplus & Hminus & _).
  destruct c as [[] [] [] [] [] [] [] []]; try congruence; rewrite Hp; reflexivity.
Qed.

Lemma digits_no_rate (s : string) : all_digits s = true -> occurs "rate=" s = false.
Proof.
  unfold occurs, all_digits. induction s as [|c s IH]; [reflexivity|].
  cbn [list_ascii_of_string forallb]. intros Hd. apply andb_true_iff in Hd as [Hc Hs].
  destruct (digit_cases c Hc) as (_ & _ & _ & _ & _ & Hr).
  rewrite str_find_unfold, str_prefix_cons.
  destruct (ascii_dec "r" c) as [E|_]; [congruence|].
  specialize (IH Hs). destruct (str_find "rate=" s); [discriminate|reflexivity].
Qed.

End DigitFacts.

(** ** Lines 68-96: from the parsed response to the audio *)

(** X7: when the data decodes to [pcm] and the mimeType gives a rate r
    with 0 < r < 2^31 (and the length fits), lines 68-96 show nothing and
    return the 44-byte header for r and the length, followed by [pcm]. *)
Theorem synthesis_pipeline
    (data : pyval) (mime_type : string) (pcm : list byte) (r : Z) :
  b64decode data = Ok pcm ->
  sample_rate_of mime_type = Ok r ->
  0 < r < 2 ^ 31 ->
  36 + Z.of_nat (length pcm) < 2 ^ 32 ->
  tts_from_response (ok_response (audio_result data (PStr mime_type)))
  = ([], Ok (Some (wav_header r (Z.of_nat (length pcm)) ++ pcm))).
Proof.
  intros Hd Hm Hr Hl. unfold tts_from_response, tts_after_status, audio_of_result.
  cbn -[b64decode str_split py_int write_wav item_1].
  rewrite Hd. cbn -[str_split py_int write_wav item_1].
  unfold sample_rate_of in Hm.
  destruct (item_1 (str_split "rate=" mime_type)) as [s|e]; [|discriminate].
  cbn -[py_int write_wav] in Hm |- *. rewrite Hm. cbn -[write_wav].
  rewrite (write_wav_ok r pcm Hr Hl). reflexivity.
Qed.

Lemma synthesis_pipeline_witness :
  tts_from_response (ok_response (audio_result (PStr "AAEC/w==") (PStr "audio/L16;rate=24000")))
  = ([], Ok (Some (wav_header 24000 4 ++ [x00; x01; x02; xff]))).
Proof.
  apply (synthesis_pipeline (PStr "AAEC/w==") "audio/L16;rate=24000" [x00; x01; x02; xff] 24000);
    [reflexivity|reflexivity|lia|cbn; lia].
Defined.

(** X8: both fields are looked up before anything is decoded: a
    [KeyError] or [IndexError] on the way to [data], or to [mimeType]
    once [data] was found, is caught and shown as
    "Unexpected API response structure", and [None] is returned, whatever
    the data holds. *)
Theorem missing_field_handled_before_decode
    (result : pyval) (field : string) (e : exn) :
  (field = "data" \/ (field = "mimeType" /\ exists v, inline_field result "data" = Ok v)) ->
  inline_field result field = Raise e ->
  exn_cls e = KeyError \/ exn_cls e = IndexError ->
  tts_from_response (ok_response result)
  = ([StError ("Unexpected API response structure: " +:+ exn_str e)], Ok None).
Proof.
  intros Hf He Hc.
  assert (audio_of_result result = Raise e) as Ha.
  { unfold audio_of_result. destruct Hf as [->|[-> [v Hv]]].
    - rewrite He. reflexivity.
    - rewrite Hv. cbn [py_bind]. rewrite He. reflexivity. }
  rewrite (tts_from_response_raise _ _ Ha).
  destruct Hc as [-> | ->]; reflexivity.
Qed.

Lemma missing_field_handled_before_decode_witness :
  tts_from_response (ok_response no_mime_result)
  = ([StError "Unexpected API response structure: 'mimeType'"], Ok None).
Proof.
  apply (missing_field_handled_before_decode _ "mimeType" (Exn KeyError "'mimeType'")).
  - right. split; [reflexivity|]. exists (PStr "A"). reflexivity.
  - reflexivity.
  - left. reflexivity.
Defined.

(** X9: a rate of zero or below passes [int] and is refused by the WAV
    writer: its [wave.Error] is caught by neither clause. *)
Theorem nonpositive_rate_uncaught (data : pyval) (mime_type : string) (pcm : list byte) (r : Z) :
  b64decode data = Ok pcm ->
  sample_rate_of mime_type = Ok r ->
  r <= 0 ->
  tts_from_response (ok_response (audio_result data (PStr mime_type)))
  = ([], Raise (Exn wave_Error "sampling rate not specified")).
Proof.
  intros Hd Hm Hr. unfold tts_from_response, tts_after_status, audio_of_result.
  cbn -[b64decode str_split py_int write_wav item_1].
  rewrite Hd. cbn -[str_split py_int write_wav item_1].
  unfold sample_rate_of in Hm.
  destruct (item_1 (str_split "rate=" mime_type)) as [s|e]; [|discriminate].
  cbn -[py_int write_wav] in Hm |- *. rewrite Hm. cbn -[write_wav].
  rewrite (write_wav_bad_rate r pcm Hr). reflexivity.
Qed.

Lemma nonpositive_rate_uncaught_witness :
  tts_from_response (ok_response (audio_result (PStr "AAEC/w==") (PStr "audio/L16;rate=0")))
  = ([], Raise (Exn wave_Error "sampling rate not specified")).
Proof.
  apply (nonpositive_rate_uncaught (PStr "AAEC/w==") "audio/L16;rate=0" [x00; x01; x02; xff] 0);
    [reflexivity|reflexivity|lia].
Defined.

(** X10: for every mimeType in which "rate=" does not occur, the split
    has one piece, [[1]] raises [IndexError], and lines 68-96 show
    "Unexpected API response structure: list index out of range" and
    return [None]. *)
Theorem missing_rate_handled (data : pyval) (mime_type : string) (pcm : list byte) :
  b64decode data = Ok pcm ->
  occurs "rate=" mime_type = false ->
  sample_rate_of mime_type = Raise (Exn IndexError "list index out of range")
  /\ tts_from_response (ok_response (audio_result data (PStr mime_type)))
     = ([StError "Unexpected API response structure: list index out of range"], Ok None).
Proof.
  intros Hd Ho.
  assert (str_split "rate=" mime_type = [mime_type]) as Hs.
  { apply str_split_none. unfold occurs in Ho.
    destruct (str_find "rate=" mime_type); [discriminate|reflexivity]. }
  split; [unfold sample_rate_of; rewrite Hs; reflexivity|].
  unfold tts_from_response, tts_after_status, audio_of_result.
  cbn -[b64decode str_split py_int write_wav item_1].
  rewrite Hd. cbn -[str_split py_int write_wav item_1]. rewrite Hs. reflexivity.
Qed.

Lemma missing_rate_handled_witness :
  sample_rate_of "audio/L16" = Raise (Exn IndexError "list index out of range")
  /\ tts_from_response (ok_response (audio_result (PStr "AAEC/w==") (PStr "audio/L16")))
     = ([StError "Unexpected API response structure: list index out of range"], Ok None).
Proof.
  apply (missing_rate_handled (PStr "AAEC/w==") "audio/L16" [x00; x01; x02; xff]);
    reflexivity.
Defined.

(** X11: lines 81-89 on every rate and every PCM sequence: a rate of
    zero or below raises [wave.Error]; a rate below 2^31 with
    36 + length below 2^32 gives header and samples; every other input
    raises [struct.error], with the text [struct.pack] has for the first
    of the RIFF length, the rate and the byte rate that does not fit. *)
Theorem write_wav_total (r : Z) (pcm : list byte) :
  write_wav r pcm
  = if r <=? 0 then Raise (Exn wave_Error "sampling rate not specified")
    else if (r <? 2 ^ 31) && (36 + Z.of_nat (length pcm) <? 2 ^ 32)
    then Ok (wav_header r (Z.of_nat (length pcm)) ++ pcm)
    else Raise (Exn struct_error
                  (struct_range_text "L" 32
                     (overflowing_field r (Z.of_nat (length pcm) / (1 * 2) * 1 * 2)))).
Proof. apply write_wav_cases. Qed.

(** X12: on every parsed body, lines 68-96 end in one of three ways:
    audio of at least 44 bytes with nothing shown; [None] with the one
    message "Unexpected API response structure" of a [KeyError] or
    [IndexError]; or an exception of another class, not a
    [RequestException], with nothing shown.  The message
    "Error generating audio" is never shown for a parsed body. *)
Theorem tts_from_response_outcome (result : pyval) :
  match tts_from_response (ok_response result) with
  | (shown, Ok (Some audio)) => shown = [] /\ (44 <= length audio)%nat
  | (shown, Ok None) =>
      exists e : exn,
        is_KeyError_or_IndexError (exn_cls e) = true
        /\ shown = [StError ("Unexpected API response structure: " +:+ exn_str e)]
  | (shown, Raise e) =>
      shown = []
      /\ is_KeyError_or_IndexError (exn_cls e) = false
      /\ is_RequestException (exn_cls e) = false
  end.
Proof.
  destruct (audio_of_result result) as [audio|e] eqn:Ha.
  - assert (tts_from_response (ok_response result) = ([], Ok (Some audio))) as ->.
    { unfold tts_from_response, tts_after_status. cbn -[audio_of_result].
      rewrite Ha. reflexivity. }
    split; [reflexivity|apply (audio_of_result_returns _ _ Ha)].
  - rewrite (tts_from_response_raise _ _ Ha).
    pose proof (audio_of_result_raises _ _ Ha) as Hq.
    destruct (is_KeyError_or_IndexError (exn_cls e)) eqn:Hk.
    + exists e. split; [exact Hk|reflexivity].
    + rewrite Hq. repeat split; assumption.
Qed.

(** X13: whenever lines 81-89 return a file, its header reads back:
    "RIFF", the length 36 + n, "WAVEfmt ", 16, format 1 (PCM), one
    channel, the sample rate, the byte rate 2r, block align 2, 16 bits,
    "data", the data length n, and then the samples. *)
Theorem wav_header_fields (r : Z) (pcm out : list byte) :
  write_wav r pcm = Ok out ->
  take 4 out = bytes "RIFF"
  /\ field 4 4 out = 36 + Z.of_nat (length pcm)
  /\ take 8 (drop 8 out) = bytes "WAVEfmt "
  /\ field 16 4 out = 16
  /\ field 20 2 out = 1
  /\ field 22 2 out = 1
  /\ field 24 4 out = r
  /\ field 28 4 out = r * 2
  /\ field 32 2 out = 2
  /\ field 34 2 out = 16
  /\ take 4 (drop 36 out) = bytes "data"
  /\ field 40 4 out = Z.of_nat (length pcm)
  /\ drop 44 out = pcm.
Proof.
  intros H. pose proof H as Ho. apply write_wav_returns in Ho.
  rewrite write_wav_cases in H.
  destruct (Z.leb_spec r 0) as [|Hr]; [discriminate|].
  destruct (Z.ltb_spec r (2 ^ 31)) as [Hr'|]; [|discriminate].
  destruct (Z.ltb_spec (36 + Z.of_nat (length pcm)) (2 ^ 32)) as [Hl|]; [|discriminate].
  clear H. subst out.
  assert (forall v, 0 <= v < 2 ^ 32 -> le_value (le_bytes 4 v) = v) as H4
    by (intros; apply le_value_le_bytes; cbn; lia).
  unfold field, wav_header.
  repeat split; try reflexivity;
    try (cbn -[le_bytes Z.add Z.mul Z.of_nat]; apply H4; lia).
Qed.

Lemma wav_header_fields_witness :
  field 24 4 (wav_header 24000 3 ++ [x01; x02; x03]) = 24000
  /\ field 40 4 (wav_header 24000 3 ++ [x01; x02; x03]) = 3.
Proof.
  pose proof (wav_header_fields 24000 [x01; x02; x03]
                (wav_header 24000 3 ++ [x01; x02; x03]) eq_refl) as H.
  split; [apply H|apply H].
Defined.

(** X14: for every non-empty string of decimal digits after the only
    "rate=", also with leading zeros: with no more than 4300 digits the
    rate read is the number the digits write, which is not negative;
    with more, [int] raises the [ValueError] of the interpreter's limit
    on digits, counting them. *)
Theorem digits_after_rate_are_the_rate (a ds : string) :
  occurs "rate=" a = false ->
  all_digits ds = true ->
  ds <> EmptyString ->
  sample_rate_of (a +:+ "rate=" +:+ ds)
  = (if MAX_STR_DIGITS <? Z.of_nat (String.length ds)
     then Raise (Exn ValueError (digit_limit_text (Z.of_nat (String.length ds))))
     else Ok (decimal_value ds))
  /\ 0 <= decimal_value ds.
Proof.
  intros Ha Hd Hne. split.
  - unfold sample_rate_of.
    rewrite (str_split_cons "rate=" _ a ds) by (discriminate || apply str_find_first, Ha).
    pose proof (digits_no_rate ds Hd) as Ho. unfold occurs in Ho.
    rewrite (str_split_none "rate=" ds)
      by (destruct (str_find "rate=" ds); [discriminate|reflexivity]).
    cbn [item_1 py_bind]. apply py_int_digits; assumption.
  - unfold decimal_value, all_digits in *.
    assert (forall l acc, forallb is_digit l = true -> 0 <= acc ->
              0 <= fold_left (fun acc c => 10 * acc + (code c - 48)) l acc) as Hf.
    { induction l as [|c l IH]; intros acc Hl Hacc; [exact Hacc|].
      cbn [forallb] in Hl. apply andb_true_iff in Hl as [Hc Hl].
      cbn [fold_left]. apply IH; [exact Hl|].
      unfold is_digit in Hc. apply andb_true_iff in Hc as [Hc _].
      apply Z.leb_le in Hc. lia. }
    apply Hf; [exact Hd|lia].
Qed.

Lemma digits_after_rate_are_the_rate_witness :
  (sample_rate_of ("audio/L16;" +:+ "rate=" +:+ "0048000") = Ok 48000 /\ 0 <= 48000)
  /\ sample_rate_of ("audio/L16;" +:+ "rate=" +:+ long_digits)
     = Raise (Exn ValueError "Exceeds the limit (4300 digits) for integer string conversion: value has 4301 digits; use sys.set_int_max_str_digits() to increase the limit").
Proof.
  split.
  - apply (digits_after_rate_are_the_rate "audio/L16;" "0048000");
      [reflexivity|reflexivity|discriminate].
  - apply (digits_after_rate_are_the_rate "audio/L16;" long_digits);
      [reflexivity|vm_compute; reflexivity|discriminate].
Defined.

(** ** The session and the requests of a run *)

Section SessionFacts.

Variable net : network.
Variable w : widgets.
Variable ss : gmap string pyval.

Lemma sidebar_voice_text :
  (sidebar w ss).1 !! "voice_text" = Some (voice_text_after w ss).
Proof.
  unfold sidebar, voice_text_after. cbn [fst].
  destruct (voice_input_param w) as [v|].
  - destruct (String.eqb v "").
    + destruct (ss !! "voice_text") as [x|] eqn:E; [exact E|apply lookup_insert_eq].
    + rewrite lookup_insert_eq. apply lookup_insert_eq.
  - destruct (ss !! "voice_text") as [x|] eqn:E; [exact E|apply lookup_insert_eq].
Qed.

Lemma on_generate_other_keys (ss1 : gmap string pyval) (k : string) :
  k <> "story_text" -> (on_generate net w ss1).1 !! k = ss1 !! k.
Proof.
  intros Hk. unfold on_generate. destruct (clicked w); try reflexivity.
  destruct (String.eqb (api_key w) ""); [reflexivity|].
  destruct (String.eqb (characters w) ""); [reflexivity|].
  destruct (generate_story net (story_prompt w) (api_key w)) as [shown [story|e]];
    [|reflexivity].
  destruct (truthy story); [|reflexivity].
  apply lookup_insert_ne. congruence.
Qed.

Lemma run_session :
  session (run_script net w ss) = (on_generate net w (sidebar w ss).1).1.
Proof.
  unfold run_script. destruct (sidebar w ss) as [ss1 shown1]. cbn [fst].
  destruct (on_generate net w ss1) as [ss2 [shown2 [[]|e]]]; [|reflexivity].
  destruct (story_area net w ss2) as [shown3 [[]|e]]; reflexivity.
Qed.

End SessionFacts.

Lemma run_posts (net : network) (w : widgets) (ss : gmap string pyval) :
  posts (page (run_script net w ss)) = request_of_run w ss.
Proof.
  unfold request_of_run.
  destruct (reaches_generate w) eqn:Hr.
  { rewrite (generate_posts_prompt net w ss Hr).
    unfold reaches_generate in Hr. destruct (clicked w); try discriminate. reflexivity. }
  unfold run_script.
  pose proof (sidebar_story_text w ss) as Hst. pose proof (sidebar_posts w ss) as Hp.
  destruct (sidebar w ss) as [ss1 shown1]. cbn [fst snd] in Hst, Hp.
  unfold reaches_generate in Hr. unfold on_generate, story_area.
  destruct (clicked w) eqn:Hc.
  - cbn. destruct (ss1 !! "story_text"); cbn; rewrite !posts_app, Hp; reflexivity.
  - destruct (String.eqb (api_key w) "").
    { cbn. destruct (ss1 !! "story_text"); cbn; rewrite !posts_app, Hp; reflexivity. }
    destruct (String.eqb (characters w) ""); [|discriminate].
    cbn. destruct (ss1 !! "story_text"); cbn; rewrite !posts_app, Hp; reflexivity.
  - cbn [io_ret]. rewrite Hst. destruct (ss !! "story_text") as [story|].
    + pose proof (text_to_speech_posts net story (api_key w)) as Ht.
      destruct (text_to_speech net story (api_key w)) as [shown [audio|e]];
        cbn [fst] in Ht.
      * cbn [io_ret io_bind]. destruct audio as [[|b data]|];
          cbn; rewrite !posts_app, Hp, Ht; reflexivity.
      * cbn. rewrite !posts_app, Hp, Ht. reflexivity.
    + cbn. rewrite !posts_app, Hp. reflexivity.
Qed.


(** X15: after every run [st.session_state.voice_text] is set: to the
    transcript of the query parameter when a non-empty one came, else to
    the value it had, else to the empty text. *)
Theorem voice_text_after_run (net : network) (w : widgets) (ss : gmap string pyval) :
  session (run_script net w ss) !! "voice_text" = Some (voice_text_after w ss).
Proof.
  rewrite run_session, on_generate_other_keys by discriminate.
  apply sidebar_voice_text.
Qed.

(** X16: a run sends at most one POST, and which one is decided by the
    button, the form and the session alone: the generation request with
    the assembled prompt when "Generate Story" is pressed with a key and
    characters, the synthesis request with the stored story when
    "Tell Me the Story" is pressed, and none otherwise. *)
Theorem posts_of_run (net : network) (w : widgets) (ss : gmap string pyval) :
  posts (page (run_script net w ss)) = request_of_run w ss
  /\ (length (posts (page (run_script net w ss))) <= 1)%nat.
Proof.
  split; [apply run_posts|]. rewrite run_posts. unfold request_of_run.
  destruct (clicked w); cbn; [lia| |].
  - destruct (reaches_generate w); cbn; lia.
  - destruct (ss !! "story_text"); cbn; lia.
Qed.

(** X17: the story a successful generation stored is the text the next
    speak action sends to the synthesis endpoint, whatever else the form
    holds then. *)
Theorem stored_story_is_spoken
    (net1 net2 : network) (w1 w2 : widgets) (ss : gmap string pyval)
    (shown : list event) (story : pyval) :
  reaches_generate w1 = true ->
  generate_story net1 (story_prompt w1) (api_key w1) = (shown, Ok story) ->
  truthy story = true ->
  clicked w2 = ClickSpeak ->
  posts (page (run_script net2 w2 (session (run_script net1 w1 ss))))
  = [HttpPost (endpoint TTS_MODEL (api_key w2)) (tts_payload story)].
Proof.
  intros Hr Hg Ht Hc.
  pose proof (story_text_of_run net1 w1 ss shown (Ok story) Hg) as Hs.
  rewrite Hr, Ht in Hs.
  rewrite run_posts. unfold request_of_run. rewrite Hc, Hs. reflexivity.
Qed.

Lemma stored_story_is_spoken_witness :
  posts (page (run_script (fun _ _ => PostFails TimedOut "timed out") speak_click
                 (session (run_script (answers (PStr "new story")) generate_click
                             old_story_session))))
  = [HttpPost (endpoint TTS_MODEL "key") (tts_payload (PStr "new story"))].
Proof.
  apply (stored_story_is_spoken (answers (PStr "new story"))
           (fun _ _ => PostFails TimedOut "timed out") generate_click speak_click
           old_story_session
           [HttpPost (endpoint TEXT_GENERATION_MODEL "key")
              (story_payload (story_prompt generate_click))]
           (PStr "new story")); reflexivity.
Defined.

(** X18: pressing "Generate Story" without a key, or without characters,
    sends nothing, ends without a fault, and the page holds the message
    of the input that is missing and no other: without a key the warning
    of the sidebar and the error naming the API key, also when the
    characters are missing too; with a key and no characters the error
    naming the characters. *)
Theorem generate_without_inputs_sends_nothing
    (net : network) (w : widgets) (ss : gmap string pyval) :
  clicked w = ClickGenerate ->
  api_key w = EmptyString \/ characters w = EmptyString ->
  page (run_script net w ss)
  = (if String.eqb (api_key w) ""
     then [StWarning "Please enter your API key to proceed. You can get one from the Google AI Studio.";
           StError "Please enter your Gemini API key in the sidebar."]
     else [StError "Please enter at least one character to get started."])
  /\ posts (page (run_script net w ss)) = []
  /\ fault (run_script net w ss) = None.
Proof.
  intros Hc Hor. unfold run_script, sidebar, on_generate, story_area. rewrite Hc.
  destruct (String.eqb_spec (api_key w) "") as [Hk|Hk].
  - cbn. destruct (_ !! "story_text"); cbn; repeat split; reflexivity.
  - destruct Hor as [?|Hch]; [congruence|]. rewrite Hch. cbn.
    destruct (_ !! "story_text"); cbn; repeat split; reflexivity.
Qed.

Lemma generate_without_inputs_sends_nothing_witness :
  (page (run_script (answers (PStr "new story")) generate_without_key old_story_session)
   = [StWarning "Please enter your API key to proceed. You can get one from the Google AI Studio.";
      StError "Please enter your Gemini API key in the sidebar."]
   /\ posts (page (run_script (answers (PStr "new story")) generate_without_key
                    old_story_session)) = []
   /\ fault (run_script (answers (PStr "new story")) generate_without_key
               old_story_session) = None)
  /\ (page (run_script (answers (PStr "new story")) generate_without_characters
              old_story_session)
      = [StError "Please enter at least one character to get started."]
      /\ posts (page (run_script (answers (PStr "new story")) generate_without_characters
                       old_story_session)) = []
      /\ fault (run_script (answers (PStr "new story")) generate_without_characters
                  old_story_session) = None).
Proof.
  split.
  - apply (generate_without_inputs_sends_nothing
             (answers (PStr "new story")) generate_without_key old_story_session);
      [reflexivity|left; reflexivity].
  - apply (generate_without_inputs_sends_nothing
             (answers (PStr "new story")) generate_without_characters old_story_session);
      [reflexivity|right; reflexivity].
Defined.

(** ** The prompt determines the request *)

Section InjectFacts.

Lemma append_nl_inj (a b : string) : a +:+ nl = b +:+ nl -> a = b.
Proof.
  revert b; induction a as [|x a IH]; intros [|y b]; rewrite ?append_cons, ?append_empty.
  - reflexivity.
  - unfold nl. intros [= _ H]. destruct b; discriminate H.
  - unfold nl. intros [= _ H]. destruct a; discriminate H.
  - intros [= -> H]. f_equal. apply IH. exact H.
Qed.

Lemma genre_option_inj (g1 g2 : Genre) : genre_option g1 = genre_option g2 -> g1 = g2.
Proof. destruct g1, g2; cbn; intros H; try reflexivity; discriminate H. Qed.

Lemma age_group_option_inj (a1 a2 : AgeGroup) :
  age_group_option a1 = age_group_option a2 -> a1 = a2.
Proof. destruct a1, a2; cbn; intros H; try reflexivity; discriminate H. Qed.

Lemma tips_part_inj (t1 t2 : string) :
  (if String.eqb t1 "" then EmptyString else "Additional Tips: " +:+ t1 +:+ nl)
  = (if String.eqb t2 "" then EmptyString else "Additional Tips: " +:+ t2 +:+ nl) ->
  t1 = t2.
Proof.
  destruct (String.eqb_spec t1 ""), (String.eqb_spec t2 ""); subst;
    rewrite ?append_cons; try discriminate; [reflexivity|].
  intros H. apply (inj (String.app "Additional Tips: ")) in H.
  apply append_nl_inj. exact H.
Qed.

End InjectFacts.

(** X19: two forms with one-line characters that give the same prompt
    have the same characters, genre, age group and tips. *)
Theorem story_prompt_injective (w1 w2 : widgets) :
  single_line (characters w1) = true ->
  single_line (characters w2) = true ->
  story_prompt w1 = story_prompt w2 ->
  characters w1 = characters w2 /\ genre w1 = genre w2
  /\ age_group w1 = age_group w2 /\ tips w1 = tips w2.
Proof.
  intros H1 H2 E.
  pose proof (f_equal lines E) as El.
  rewrite (story_prompt_lines w1 H1), (story_prompt_lines w2 H2) in El.
  pose proof (f_equal (fun l => nth 2 l EmptyString) El) as Hc.
  pose proof (f_equal (fun l => nth 3 l EmptyString) El) as Hg.
  pose proof (f_equal (fun l => nth 4 l EmptyString) El) as Ha.
  cbn [nth app] in Hc, Hg, Ha.
  apply (inj (String.app "Characters: ")) in Hc.
  apply (inj (String.app "Genre: ")) in Hg. apply genre_option_inj in Hg.
  apply (inj (String.app "Age Group: ")) in Ha. apply age_group_option_inj in Ha.
  repeat split; try assumption.
  rewrite !story_prompt_unfold, Hc, Hg, Ha in E.
  repeat (apply (inj (String.app _)) in E).
  apply tips_part_inj. exact E.
Qed.

Lemma story_prompt_injective_witness :
  characters bear_request = characters bear_request
  /\ genre bear_request = genre bear_request
  /\ age_group bear_request = age_group bear_request
  /\ tips bear_request = tips bear_request.
Proof. apply (story_prompt_injective bear_request bear_request); reflexivity. Defined.

(** ** Characters the base64 decoder passes over *)

Section Base64Facts.

Lemma a2b_loop_skip (s1 s2 : string) (c : ascii) (st : a2b_state) :
  Ascii.eqb c "=" = false -> b64_value c = None ->
  a2b_loop (s1 +:+ String c s2) st = a2b_loop (s1 +:+ s2) st.
Proof.
  intros Hp Hv. revert st. induction s1 as [|x s1 IH]; intros st;
    rewrite ?append_cons, ?append_empty.
  - cbn [a2b_loop]. rewrite Hp, Hv. reflexivity.
  - cbn [a2b_loop]. destruct (Ascii.eqb x "=").
    + destruct (2 <=? quad_pos st); [|apply IH].
      destruct (4 <=? quad_pos st + (pads st + 1)); [reflexivity|apply IH].
    + destruct (b64_value x); apply IH.
Qed.

Lemma is_ascii_app (s1 s2 : string) : is_ascii (s1 +:+ s2) = is_ascii s1 && is_ascii s2.
Proof.
  unfold is_ascii. induction s1 as [|x s1 IH]; [reflexivity|].
  rewrite append_cons. cbn [list_ascii_of_string forallb]. rewrite IH, andb_assoc. reflexivity.
Qed.

End Base64Facts.

(** X20: [b64decode] as line 74 calls it, without validation, skips every
    ASCII character outside the base64 alphabet other than the pad: a
    line break or a space inside the data changes neither the bytes nor
    the error. *)
Theorem b64decode_skips_foreign_characters (s1 s2 : string) (c : ascii) :
  code c < 128 ->
  Ascii.eqb c "=" = false ->
  b64_value c = None ->
  b64decode (PStr (s1 +:+ String c s2)) = b64decode (PStr (s1 +:+ s2)).
Proof.
  intros Ha Hp Hv. unfold b64decode.
  assert (is_ascii (s1 +:+ String c s2) = is_ascii (s1 +:+ s2)) as ->.
  { rewrite !is_ascii_app. unfold is_ascii at 2. cbn [list_ascii_of_string forallb].
    rewrite (proj2 (Z.ltb_lt _ _) Ha). reflexivity. }
  destruct (is_ascii (s1 +:+ s2)); [|reflexivity].
  apply a2b_loop_skip; assumption.
Qed.

Lemma b64decode_skips_foreign_characters_witness :
  b64decode (PStr ("AAEC" +:+ String LF "/w==")) = b64decode (PStr ("AAEC" +:+ "/w==")).
Proof. apply b64decode_skips_foreign_characters; reflexivity. Defined.
